(** * Whisp API: a shallow embedding of the analysis service

    The service layer of the repository (api/app) is embedded here as Rocq
    functions: the pydantic request schema (models/schemas.py), the settings
    (core/config.py) and the [/analyze] route (api/routes.py).  The whisp
    engine itself ([modules.stats], [modules.risk], [modules.utils]) and the
    libraries the route calls (earthengine, geemap, pandas) are collaborators:
    the route is embedded over a record of them. *)

From Stdlib Require Import ZArith QArith Qabs Qround Qpower Lqa Lia.
From Stdlib Require Import List String Ascii Bool.
From Stdlib Require PrimFloat FloatOps SpecFloat.
From Stdlib Require Import DecimalString Permutation.
Import ListNotations.

Local Open Scope string_scope.
Local Open Scope Z_scope.

(** ** Python values *)

(** A Python [float]: a finite binary64 value is a rational; the three
    special values are kept apart because comparisons treat them apart. *)
Inductive pyfloat : Type :=
| Finite (q : Q)
| PosInf
| NegInf
| NaN.

(** [x >= y] on Python floats; anything compared with NaN is false. *)
Definition float_ge (x y : pyfloat) : bool :=
  match x, y with
  | NaN, _ | _, NaN => false
  | PosInf, _ => true
  | _, NegInf => true
  | NegInf, _ => false
  | Finite _, PosInf => false
  | Finite a, Finite b => Qle_bool b a
  end.

Definition float_le (x y : pyfloat) : bool := float_ge y x.

(** *** binary64 arithmetic

    An operation on Python floats returns its exact result rounded to the
    nearest binary64 value, ties to the even significand: 53 significant
    bits, quantum 2^-1074 below the smallest normal 2^-1022, and an
    infinity when the rounded magnitude reaches 2^1024. *)

Section Binary64.
Local Open Scope Q_scope.

Definition pow2 (e : Z) : Q := 2 ^ e.

(** The nearest integer, ties to even. *)
Definition round_half_even (y : Q) : Z :=
  let f := Qfloor y in
  match Qcompare (y - inject_Z f) (1 # 2) with
  | Lt => f
  | Gt => (f + 1)%Z
  | Eq => if Z.even f then f else (f + 1)%Z
  end.

(** The exponent of the quantum at [x <> 0]: the [e] with
    [2^52 <= |x| / 2^e < 2^53], and -1074 in the subnormal range. *)
Definition binary64_exponent (x : Q) : Z :=
  let e0 := (Z.log2 (Z.abs (Qnum x)) - Z.log2 (Z.pos (Qden x)) - 53)%Z in
  let e := if Qle_bool (pow2 53) (Qabs x / pow2 e0) then (e0 + 1)%Z else e0 in
  Z.max e (-1074).

(** Rounding to the binary64 grid, the exponent unbounded above. *)
Definition binary64_round (x : Q) : Q :=
  match Qnum x with
  | Z0 => 0
  | _ =>
      let e := binary64_exponent x in
      Qred (inject_Z (round_half_even (x / pow2 e)) * pow2 e)
  end.

(** The binary64 value of the exact result [x], overflow included. *)
Definition binary64 (x : Q) : pyfloat :=
  let r := binary64_round x in
  if Qle_bool (pow2 1024) (Qabs r) then
    if Qle_bool 0 x then PosInf else NegInf
  else Finite r.

(** The value of a float of the machine, to compare [binary64] with. *)
Definition float_value (f : PrimFloat.float) : pyfloat :=
  match FloatOps.Prim2SF f with
  | SpecFloat.S754_zero _ => Finite 0
  | SpecFloat.S754_finite sgn m e =>
      Finite (Qred ((if sgn then -1 else 1) * inject_Z (Z.pos m) * pow2 e))
  | SpecFloat.S754_infinity false => PosInf
  | SpecFloat.S754_infinity true => NegInf
  | SpecFloat.S754_nan => NaN
  end.
End Binary64.

(** [str(n)] for a Python [int]. *)
Definition str_int (n : Z) : string := NilZero.string_of_int (Z.to_int n).

(** The exceptions the route distinguishes: FastAPI's [HTTPException], and
    every other [Exception], of which only [str(e)] is ever used. *)
Inductive PyExc : Type :=
| HTTPException (status_code : Z) (detail : string)
| Exception (msg : string).

Definition str_exc (e : PyExc) : string :=
  match e with
  | HTTPException c d => str_int c ++ ": " ++ d
  | Exception msg => msg
  end.

Definition HTTP_400_BAD_REQUEST : Z := 400.
Definition HTTP_422_UNPROCESSABLE_ENTITY : Z := 422.
Definition HTTP_500_INTERNAL_SERVER_ERROR : Z := 500.

(** ** models/schemas.py *)

Inductive InputType : Type := GEE_ASSET | GEOJSON.

Inductive OutputUnit : Type := HECTARES | PERCENT.

Definition OutputUnit_value (u : OutputUnit) : string :=
  match u with HECTARES => "ha" | PERCENT => "percent" end.

Inductive RiskLevel : Type := LOW | HIGH | MORE_INFO_NEEDED.

Record AnalyzeRequest : Type := mkAnalyzeRequest {
  input_type : InputType;
  input_data : string;
  output_unit : OutputUnit;
  calculate_risk : bool;
  ind_1_threshold : pyfloat;
  ind_2_threshold : pyfloat;
  ind_3_threshold : pyfloat;
  ind_4_threshold : pyfloat
}.

(** The JSON body as it reaches pydantic: a field is absent ([None]) or
    carries a value of the JSON type the schema expects. *)
Record RequestBody : Type := mkRequestBody {
  body_input_type : option string;
  body_input_data : option string;
  body_output_unit : option string;
  body_calculate_risk : option bool;
  body_ind_1_threshold : option pyfloat;
  body_ind_2_threshold : option pyfloat;
  body_ind_3_threshold : option pyfloat;
  body_ind_4_threshold : option pyfloat
}.

Definition parse_InputType (s : string) : option InputType :=
  if String.eqb s "gee_asset" then Some GEE_ASSET
  else if String.eqb s "geojson" then Some GEOJSON
  else None.

Definition parse_OutputUnit (s : string) : option OutputUnit :=
  if String.eqb s "ha" then Some HECTARES
  else if String.eqb s "percent" then Some PERCENT
  else None.

(** [Field(default=d, ge=0, le=100)]: an absent field takes the default
    (pydantic does not validate defaults), a present one must pass both
    bounds. *)
Definition threshold_field (default : pyfloat) (v : option pyfloat)
  : option pyfloat :=
  match v with
  | None => Some default
  | Some x =>
      if float_ge x (Finite 0) && float_le x (Finite 100) then Some x
      else None
  end.

(** [Field(...)]: a required field. *)
Definition required_field {A B : Type} (parse : A -> option B) (v : option A)
  : option B :=
  match v with None => None | Some x => parse x end.

(** [Field(default=d)] without constraints. *)
Definition default_field {A B : Type} (default : B) (parse : A -> option B)
  (v : option A) : option B :=
  match v with None => Some default | Some x => parse x end.

(** [math.isfinite(x)] *)
Definition is_finite (x : pyfloat) : bool :=
  match x with Finite _ => true | _ => false end.

(** Whether the body carries a threshold that is NaN or an infinity. *)
Definition has_non_finite_threshold (b : RequestBody) : bool :=
  existsb (fun v => match v with
                    | Some x => negb (is_finite x)
                    | None => false
                    end)
    [body_ind_1_threshold b; body_ind_2_threshold b;
     body_ind_3_threshold b; body_ind_4_threshold b].

(** Validation of the body against [AnalyzeRequest]; [None] is a pydantic
    [ValidationError]. *)
Definition validate_AnalyzeRequest (b : RequestBody) : option AnalyzeRequest :=
  match required_field parse_InputType (body_input_type b),
        required_field (@Some string) (body_input_data b),
        default_field HECTARES parse_OutputUnit (body_output_unit b),
        default_field false (@Some bool) (body_calculate_risk b),
        threshold_field (Finite 10) (body_ind_1_threshold b),
        threshold_field (Finite 10) (body_ind_2_threshold b),
        threshold_field (Finite 0) (body_ind_3_threshold b),
        threshold_field (Finite 0) (body_ind_4_threshold b)
  with
  | Some it, Some d, Some u, Some r, Some t1, Some t2, Some t3, Some t4 =>
      Some (mkAnalyzeRequest it d u r t1 t2 t3 t4)
  | _, _, _, _, _, _, _, _ => None
  end.

(** ** Table cells and data frames *)

(** A cell of a pandas column: missing (None or NaN), a number as a
    numeric column holds it (int64 or float64), or a string. *)
Inductive Cell : Type :=
| CNull
| CNum (x : Q)
| CStr (s : string).

Definition Series : Type := list Cell.

(** A data frame, column by column, in column order. *)
Definition DataFrame : Type := list (string * Series).

Definition df_columns (df : DataFrame) : list string := map fst df.

(** [df[col]] *)
Fixpoint df_getitem (df : DataFrame) (col : string) : option Series :=
  match df with
  | [] => None
  | (name, s) :: rest =>
      if String.eqb name col then Some s else df_getitem rest col
  end.

(** [df[col] = s] for a column that exists: the column is replaced in place. *)
Fixpoint df_setitem (df : DataFrame) (col : string) (s : Series) : DataFrame :=
  match df with
  | [] => []
  | (name, old) :: rest =>
      if String.eqb name col then (name, s) :: rest
      else (name, old) :: df_setitem rest col s
  end.

Definition df_nrows (df : DataFrame) : nat :=
  match df with [] => O | (_, s) :: _ => List.length s end.

(** A Python [dict] is the list of its items in insertion order.
    [d[k] = v]: a key that is there keeps its place and takes the value, a
    new key goes to the end. *)
Fixpoint dict_setitem (d : list (string * Cell)) (k : string) (v : Cell)
  : list (string * Cell) :=
  match d with
  | [] => [(k, v)]
  | (k', v') :: rest =>
      if String.eqb k' k then (k', v) :: rest
      else (k', v') :: dict_setitem rest k v
  end.

(** [dict(items)]: each key once, with the last value given for it. *)
Definition dict_of_items (items : list (string * Cell))
  : list (string * Cell) :=
  fold_left (fun d kv => dict_setitem d (fst kv) (snd kv)) items [].

(** [df.to_dict(orient="records")]: one record per row, the dictionary
    [dict(zip(df.columns, row))]. *)
Definition to_dict_records (df : DataFrame) : list (list (string * Cell)) :=
  map (fun i => dict_of_items (map (fun c => (fst c, nth i (snd c) CNull)) df))
      (seq 0 (df_nrows df)).

Record AnalyzeResponse : Type := mkAnalyzeResponse {
  status : string;
  num_features : Z;
  response_output_unit : string;
  risk_calculated : bool;
  results : list (list (string * Cell));
  message : option string
}.

(** ** core/config.py *)

Record Settings : Type := mkSettings {
  GEE_PROJECT : option string;
  WHISP_THRESHOLD_TO_DRIVE : Z
}.

Definition settings : Settings :=
  {| GEE_PROJECT := None; WHISP_THRESHOLD_TO_DRIVE := 500 |}.

(** ** The process the route runs in *)

(** What a run does to the outside, in order. *)
Inductive Event : Type :=
| ev_ee_Initialize
| ev_ee_FeatureCollection
| ev_size_getInfo
| ev_set_percent_or_ha (v : string)
| ev_get_stats (unit_seen : string)
| ev_ee_to_pandas
| ev_collection_properties_to_df
| ev_whisp_risk.

(** The module [parameters.config_runtime] is one object shared by every
    request of the process; [calls] is the log of what has been done. *)
Record World : Type := mkWorld {
  percent_or_ha : string;
  calls : list Event
}.

Definition log (ev : Event) (w : World) : World :=
  {| percent_or_ha := percent_or_ha w; calls := calls w ++ [ev] |}.

(** A Python computation: it ends in a value or in a raised exception, and
    what it did to the world stays done either way. *)
Definition M (A : Type) : Type := World -> (PyExc + A) * World.

Definition ret {A : Type} (a : A) : M A := fun w => (inr a, w).

Definition bind {A B : Type} (m : M A) (k : A -> M B) : M B :=
  fun w =>
    match m w with
    | (inl e, w') => (inl e, w')
    | (inr a, w') => k a w'
    end.

Definition raise {A : Type} (e : PyExc) : M A := fun w => (inl e, w).

(** [try: m  except Exception as e: h e] *)
Definition try_except {A : Type} (m : M A) (h : PyExc -> M A) : M A :=
  fun w =>
    match m w with
    | (inl e, w') => h e w'
    | (inr a, w') => (inr a, w')
    end.

(** A call to a collaborator: logged, and its failure raised. *)
Definition call {A : Type} (ev : Event) (r : string + A) : M A :=
  fun w =>
    (match r with inl msg => inl (Exception msg) | inr a => inr a end,
     log ev w).

Definition get_percent_or_ha : M string := fun w => (inr (percent_or_ha w), w).

Definition set_percent_or_ha (v : string) : M unit :=
  fun w =>
    (inr tt,
     {| percent_or_ha := v; calls := calls w ++ [ev_set_percent_or_ha v] |}).

Declare Scope py_scope.
Delimit Scope py_scope with py.
Notation "x <- m ;; k" := (bind m (fun x => k))
  (at level 61, m at next level, right associativity) : py_scope.
Notation "m ;; k" := (bind m (fun _ => k))
  (at level 61, right associativity) : py_scope.

(** ** The collaborators of api/routes.py *)

(** Each one returns [inl str(e)] when it raises.  [get_stats] and
    [whisp_risk] are whisp modules and may read [config.percent_or_ha]: they
    get its value at the time of the call.

    [pd_to_numeric s] is what [pd.to_numeric(s, errors='ignore')] makes of a
    column that holds a string: [Some values] when pandas converts the
    column, with the values of the numeric column it returns ([None] for
    NaN); [None] when the column is not converted, because pandas hands the
    input back (a value does not parse) or because the call raises (a pandas
    that no longer knows [errors='ignore']).  Which strings parse, what an
    empty string becomes and how the numbers are rounded is pandas' own
    business and stays inside the collaborator. *)
Record Collaborators : Type := mkCollaborators {
  FeatureCollection : Type;
  ee_Initialize : option string -> string + unit;
  ee_FeatureCollection : string -> string + FeatureCollection;
  json_FeatureCollection : string -> string + FeatureCollection;
  size_getInfo : FeatureCollection -> string + Z;
  get_stats : string -> FeatureCollection -> string + FeatureCollection;
  geemap_ee_to_pandas : FeatureCollection -> string + DataFrame;
  collection_properties_to_df : FeatureCollection -> string + DataFrame;
  pd_to_numeric : Series -> option (list (option Q));
  whisp_risk :
    string -> DataFrame -> pyfloat -> pyfloat -> pyfloat -> pyfloat ->
    string + DataFrame
}.

(** ** pandas columns *)

(** A cell that is no string: a number or a missing value. *)
Definition is_numeric_cell (c : Cell) : bool :=
  match c with CStr _ => false | _ => true end.

(** The numeric column of [n] rows with the given values.  An assignment
    [df[col] = s] aligns [s] on the index of the frame: every row of the
    frame gets the value [s] has for it, NaN if it has none. *)
Definition numeric_column (n : nat) (values : list (option Q)) : Series :=
  map (fun i => match nth i values None with
                | Some x => CNum x
                | None => CNull
                end)
      (seq 0 n).

(** ** api/routes.py *)

(** The columns the route exempts from numeric coercion. *)
Definition metadata_columns : list string :=
  ["Plot_ID"; "Geometry_type"; "Country"; "Admin_Level_1";
   "In_waterbody"; "Unit"; "geoid"; "system:index"; "id"; "name"].

Definition is_metadata (col : string) : bool :=
  existsb (String.eqb col) metadata_columns.

Section Routes.
Variable E : Collaborators.
Local Open Scope py_scope.

Definition initialize_gee : M bool :=
  try_except
    (match GEE_PROJECT settings with
     | Some (String c p) =>
         call ev_ee_Initialize (ee_Initialize E (Some (String c p)))
     | _ => call ev_ee_Initialize (ee_Initialize E None)
     end ;;
     ret true)
    (fun _ => ret false).

(** [json.loads] and the [ee.FeatureCollection] constructor are one
    collaborator, [json_FeatureCollection]. *)
Definition geojson_to_ee (geojson_str : string) : M (FeatureCollection E) :=
  try_except
    (call ev_ee_FeatureCollection (json_FeatureCollection E geojson_str))
    (fun e => raise (Exception ("Failed to parse GeoJSON: " ++ str_exc e))).

Definition fc_to_dataframe (fc : FeatureCollection E) (num_features : Z)
  : M DataFrame :=
  try_except
    (if num_features <=? 500
     then call ev_ee_to_pandas (geemap_ee_to_pandas E fc)
     else call ev_collection_properties_to_df
            (collection_properties_to_df E fc))
    (fun e =>
       raise (Exception
                ("Failed to convert FeatureCollection to DataFrame: "
                 ++ str_exc e))).

(** The column that [df[col] = pd.to_numeric(df[col], errors='ignore')]
    leaves in the frame, the bare [except: pass] around it included.  A
    column without a string got a numeric dtype when pandas built the frame
    from the features: [to_numeric] hands it back as it is (and a column of
    missing values only is converted to itself).  A column with a string is
    of object dtype: pandas converts it as a whole or not at all. *)
Definition to_numeric_ignore (s : Series) : Series :=
  if forallb is_numeric_cell s then s
  else
    match pd_to_numeric E s with
    | Some values => numeric_column (List.length s) values
    | None => s
    end.

(** One turn of the loop over [df.columns].  For a name that occurs more
    than once [df[col]] is a frame, not a column: [pd.to_numeric] raises
    [TypeError] on it and the bare [except] passes. *)
Definition coerce_column (df : DataFrame) (col : string) : DataFrame :=
  if is_metadata col then df
  else if Nat.eqb (count_occ string_dec (df_columns df) col) 1 then
    match df_getitem df col with
    | Some s => df_setitem df col (to_numeric_ignore s)
    | None => df
    end
  else df.

(** "Convert numeric columns from strings to floats" *)
Definition coerce_numeric_columns (df : DataFrame) : DataFrame :=
  fold_left coerce_column (df_columns df) df.

(** The block under "Run Whisp analysis". *)
Definition run_whisp_analysis (request : AnalyzeRequest)
  (feature_collection : FeatureCollection E) (num_features : Z)
  : M DataFrame :=
  try_except
    (original_unit <- get_percent_or_ha ;;
     set_percent_or_ha (OutputUnit_value (output_unit request)) ;;
     unit_now <- get_percent_or_ha ;;
     stats_fc <- call (ev_get_stats unit_now)
                   (get_stats E unit_now feature_collection) ;;
     df <- fc_to_dataframe stats_fc num_features ;;
     let df := coerce_numeric_columns df in
     set_percent_or_ha original_unit ;;
     ret df)
    (fun e =>
       raise (HTTPException HTTP_500_INTERNAL_SERVER_ERROR
                ("Failed to run analysis: " ++ str_exc e))).

Definition calculate_risk_step (request : AnalyzeRequest) (df : DataFrame)
  : M DataFrame :=
  if calculate_risk request then
    try_except
      (unit_now <- get_percent_or_ha ;;
       call ev_whisp_risk
         (whisp_risk E unit_now df
            (ind_1_threshold request) (ind_2_threshold request)
            (ind_3_threshold request) (ind_4_threshold request)))
      (fun e =>
         raise (HTTPException HTTP_500_INTERNAL_SERVER_ERROR
                  ("Failed to calculate risk: " ++ str_exc e)))
  else ret df.

Definition too_large_response (request : AnalyzeRequest) (num_features : Z)
  : AnalyzeResponse :=
  {| status := "too_large";
     num_features := num_features;
     response_output_unit := OutputUnit_value (output_unit request);
     risk_calculated := false;
     results := [];
     message :=
       Some ("Dataset has " ++ str_int num_features
             ++ " features, which exceeds the limit of "
             ++ str_int (WHISP_THRESHOLD_TO_DRIVE settings) ++ ". "
             ++ "Please use the Google Drive export workflow or reduce the number of features.") |}.

Definition success_response (request : AnalyzeRequest) (num_features : Z)
  (df : DataFrame) : AnalyzeResponse :=
  {| status := "success";
     num_features := num_features;
     response_output_unit := OutputUnit_value (output_unit request);
     risk_calculated := calculate_risk request;
     results := to_dict_records df;
     message :=
       Some ("Successfully analyzed " ++ str_int num_features
             ++ " features") |}.

(** [input_type] has passed validation, so the route's last branch
    ("Invalid input_type") has no case here. *)
Definition parse_input (request : AnalyzeRequest) : M (FeatureCollection E) :=
  match input_type request with
  | GEE_ASSET =>
      try_except
        (call ev_ee_FeatureCollection
           (ee_FeatureCollection E (input_data request)))
        (fun e =>
           raise (HTTPException HTTP_400_BAD_REQUEST
                    ("Failed to load GEE asset: " ++ str_exc e)))
  | GEOJSON =>
      try_except
        (geojson_to_ee (input_data request))
        (fun e =>
           raise (HTTPException HTTP_400_BAD_REQUEST
                    ("Failed to parse GeoJSON: " ++ str_exc e)))
  end.

Definition analyze_plots (request : AnalyzeRequest) : M AnalyzeResponse :=
  try_except
    (gee_ok <- initialize_gee ;;
     if negb gee_ok then
       raise (HTTPException HTTP_500_INTERNAL_SERVER_ERROR
                "Failed to initialize Google Earth Engine. Check authentication.")
     else
     feature_collection <- parse_input request ;;
     num_features <-
       try_except
         (call ev_size_getInfo (size_getInfo E feature_collection))
         (fun e =>
            raise (HTTPException HTTP_400_BAD_REQUEST
                     ("Failed to get feature count: " ++ str_exc e))) ;;
     if num_features =? 0 then
       raise (HTTPException HTTP_400_BAD_REQUEST "Input contains no features")
     else if num_features >? WHISP_THRESHOLD_TO_DRIVE settings then
       ret (too_large_response request num_features)
     else
     df <- run_whisp_analysis request feature_collection num_features ;;
     df <- calculate_risk_step request df ;;
     ret (success_response request num_features df))
    (fun e =>
       match e with
       | HTTPException _ _ => raise e
       | Exception msg =>
           raise (HTTPException HTTP_500_INTERNAL_SERVER_ERROR
                    ("Unexpected error: " ++ msg))
       end).

(** What the client gets: the response, an error rendered with its
    status and detail, or FastAPI's 422 for a body that fails validation
    (its list of errors is not modelled). *)
Inductive HTTPReply : Type :=
| Reply200 (body : AnalyzeResponse)
| ReplyError (status_code : Z) (detail : string)
| ReplyValidationError.

Definition reply_status (r : HTTPReply) : Z :=
  match r with
  | Reply200 _ => 200
  | ReplyError c _ => c
  | ReplyValidationError => HTTP_422_UNPROCESSABLE_ENTITY
  end.

(** main.py, [global_exception_handler]: the reply to an exception nothing
    else handles. *)
Definition global_exception_handler : HTTPReply :=
  ReplyError HTTP_500_INTERNAL_SERVER_ERROR
    "An unexpected error occurred. Please check the server logs.".

(** FastAPI's handling of [POST /analyze]: the body is validated against
    [AnalyzeRequest] first, and the route runs only on a valid request.
    The 422 for an invalid body lists the errors with the offending input
    values and is rendered as strict JSON: when one of them is NaN or an
    infinity (a threshold, which then fails its bounds) the rendering
    raises, and the exception goes to the global handler of main.py. *)
Definition post_analyze (b : RequestBody) (w : World) : HTTPReply * World :=
  match validate_AnalyzeRequest b with
  | None =>
      if has_non_finite_threshold b then (global_exception_handler, w)
      else (ReplyValidationError, w)
  | Some request =>
      match analyze_plots request w with
      | (inr response, w') => (Reply200 response, w')
      | (inl (HTTPException c d), w') => (ReplyError c d, w')
      | (inl (Exception _), w') => (global_exception_handler, w')
      end
  end.
End Routes.

(** ** The engine behind [get_stats] and [whisp_risk]

    [modules.stats] and [modules.risk] are not part of the service layer:
    the route only calls them.  The table builder and the classifier they
    contain are modelled from the specification (sections 3, 4.4, 4.5
    and 7). *)

Module Engine.
Local Open Scope Q_scope.

(** Modelled from the spec: the unit of a layer (section 3), declared in
    the registry behind [modules.stats]. *)
Inductive Unit : Type := area_unit | percent_of_plot | categorical | boolean.

(** Modelled from the spec: the requested output unit (section 6), which
    [modules.stats] reads. *)
Inductive RequestedUnit : Type := req_area | req_percent_of_plot.

(** Modelled from the spec: the four regulatory indicators of
    [modules.risk] (section 3). *)
Inductive Indicator : Type := ind_1 | ind_2 | ind_3 | ind_4.

Definition Indicator_eqb (i j : Indicator) : bool :=
  match i, j with
  | ind_1, ind_1 | ind_2, ind_2 | ind_3, ind_3 | ind_4, ind_4 => true
  | _, _ => false
  end.

(** Modelled from the spec: DatasetDescriptor (section 3), one layer of
    the registry behind [modules.stats]; category and expected range are
    informational and left out. *)
Record DatasetDescriptor : Type := mkDataset {
  id : string;
  unit : Unit;
  contributes_to_indicator : option Indicator
}.

(** Modelled from the spec: Plot (section 3), as [modules.stats] receives
    it; geometry kind and admin attributes are carried along unchanged and
    left out. *)
Record Plot : Type := mkPlot {
  plot_id : string;
  area : Q
}.

(** Modelled from the spec: ConversionError (section 7), raised inside
    [modules.stats]: "unit conversion attempted on a zero-area plot, or on
    a non-numeric value for a numeric-only layer". *)
Inductive ConversionError : Type :=
| zero_area_plot
| non_numeric_value.

Section Conversion.
(** The rounding of one floating-point operation. *)
Variable rnd : Q -> Q.

(** Modelled from the spec: the float division of the conversions of
    [modules.stats], the exact quotient rounded. *)
Definition fl_div (x y : Q) : Q := rnd (x / y).

(** Modelled from the spec: the float multiplication of the conversions of
    [modules.stats], the exact product rounded. *)
Definition fl_mul (x y : Q) : Q := rnd (x * y).

(** Modelled from the spec: the conversion of [modules.stats] to percent,
    "a layer declared area is divided by plot area x100 to produce
    percent-of-plot". *)
Definition area_to_percent (v plot_area : Q) : Q :=
  fl_mul (fl_div v plot_area) 100.

(** Modelled from the spec: the conversion of [modules.stats] to area,
    "a layer declared percent-of-plot is multiplied by plot area /100 to
    produce area". *)
Definition percent_to_area (p plot_area : Q) : Q :=
  fl_div (fl_mul p plot_area) 100.

(** Modelled from the spec: an area<->percent conversion of
    [modules.stats] with its refusals (sections 3 and 7): on a plot whose
    area is not positive, and on a value that is not a number; a null stays
    null. *)
Definition convert_with (f : Q -> Q -> Q) (raw : Cell) (plot_area : Q)
  : ConversionError + Cell :=
  if Qle_bool plot_area 0 then inl zero_area_plot
  else
    match raw with
    | CNull => inr CNull
    | CNum v => inr (CNum (f v plot_area))
    | CStr _ => inl non_numeric_value
    end.

(** Modelled from the spec: the unit conversion rule of the Statistics
    Table Builder of [modules.stats] (section 4.4) with the ConversionError
    of section 7: a function of (raw_value, dataset.unit, plot.area,
    requested_unit). *)
Definition convert (raw : Cell) (dataset_unit : Unit) (plot_area : Q)
  (requested_unit : RequestedUnit) : ConversionError + Cell :=
  match dataset_unit, requested_unit with
  | area_unit, req_percent_of_plot =>
      convert_with area_to_percent raw plot_area
  | percent_of_plot, req_area =>
      convert_with percent_to_area raw plot_area
  | _, _ => inr raw
  end.

(** Modelled from the spec: one (plot, layer) cell of the table of
    [modules.stats] with the error it surfaced (section 7): "the affected
    row's statistic is marked null and the run continues". *)
Definition build_cell (requested_unit : RequestedUnit) (p : Plot)
  (d : DatasetDescriptor) (raw : Cell)
  : (string * Cell) * list (string * string * ConversionError) :=
  match convert raw (unit d) (area p) requested_unit with
  | inr c => ((id d, c), [])
  | inl err => ((id d, CNull), [(plot_id p, id d, err)])
  end.

(** Modelled from the spec: the cells of one plot in the table of
    [modules.stats], in registry order (section 3); a raw value the reducer
    did not supply is null. *)
Fixpoint build_cells (requested_unit : RequestedUnit) (p : Plot)
  (registry : list DatasetDescriptor) (raws : list Cell)
  : list ((string * Cell) * list (string * string * ConversionError)) :=
  match registry with
  | [] => []
  | d :: registry' =>
      build_cell requested_unit p d (hd CNull raws)
      :: build_cells requested_unit p registry' (tl raws)
  end.

(** Modelled from the spec: a row of the StatisticsTable of
    [modules.stats] (section 3), the plot and one cell per layer. *)
Record Row : Type := mkRow {
  row_plot : Plot;
  row_cells : list (string * Cell)
}.

(** Modelled from the spec: the StatisticsTable of [modules.stats]
    (section 3) with the conversion errors surfaced per plot and column
    (section 7). *)
Record StatisticsTable : Type := mkTable {
  table_rows : list Row;
  conversion_errors : list (string * string * ConversionError)
}.

(** Modelled from the spec: the row of one plot in the table of
    [modules.stats] (section 4.4). *)
Definition build_row (requested_unit : RequestedUnit)
  (registry : list DatasetDescriptor) (p : Plot) (raws : list Cell)
  : Row * list (string * string * ConversionError) :=
  let cells := build_cells requested_unit p registry raws in
  (mkRow p (map fst cells), List.concat (map snd cells)).

(** Modelled from the spec: the rows of the table of [modules.stats], in
    plot order (section 3); a plot the reducer returned nothing for has
    null statistics and still its row (section 4.4). *)
Fixpoint build_rows (requested_unit : RequestedUnit)
  (registry : list DatasetDescriptor) (plots : list Plot)
  (raw_matrix : list (list Cell))
  : list (Row * list (string * string * ConversionError)) :=
  match plots with
  | [] => []
  | p :: plots' =>
      build_row requested_unit registry p (hd [] raw_matrix)
      :: build_rows requested_unit registry plots' (tl raw_matrix)
  end.

(** Modelled from the spec: build(raw_matrix, plots, requested_unit) of
    section 4.4, the table builder of [modules.stats]: one row per plot in
    plot order, one cell per registered layer in registry order; a
    ConversionError marks its cell null, is reported with plot id and
    column id, and stops nothing. *)
Definition build (registry : list DatasetDescriptor)
  (raw_matrix : list (list Cell)) (plots : list Plot)
  (requested_unit : RequestedUnit) : StatisticsTable :=
  let rows := build_rows requested_unit registry plots raw_matrix in
  mkTable (map fst rows) (List.concat (map snd rows)).
End Conversion.

(** Modelled from the spec: RiskIndicator (section 3), the tri-state
    [modules.risk] gives one indicator of one plot. *)
Inductive IndicatorState : Type := exceeded | not_exceeded | unknown.

(** Modelled from the spec: ClassificationError of [modules.risk]
    (sections 4.5 and 7), a mismatch between table and registry, with the
    indicator it is about. *)
Inductive ClassificationError : Type :=
| column_absent (i : Indicator)
| column_not_numeric (i : Indicator).

(** Modelled from the spec: the four caller-supplied thresholds of
    [modules.risk] (section 4.5), one per indicator. *)
Record Thresholds : Type := mkThresholds {
  threshold_1 : Q;
  threshold_2 : Q;
  threshold_3 : Q;
  threshold_4 : Q
}.

Definition threshold_of (t : Thresholds) (i : Indicator) : Q :=
  match i with
  | ind_1 => threshold_1 t
  | ind_2 => threshold_2 t
  | ind_3 => threshold_3 t
  | ind_4 => threshold_4 t
  end.

(** Modelled from the spec: the four indicator states [modules.risk]
    returns for a plot (section 6). *)
Record IndicatorStates : Type := mkStates {
  state_1 : IndicatorState;
  state_2 : IndicatorState;
  state_3 : IndicatorState;
  state_4 : IndicatorState
}.


(** Modelled from the spec: the column an indicator of [modules.risk]
    reads (sections 3 and 4.5): the first registered layer that declares it
    contributes to that indicator. *)
Fixpoint contributing_column (registry : list DatasetDescriptor)
  (i : Indicator) : option string :=
  match registry with
  | [] => None
  | d :: registry' =>
      match contributes_to_indicator d with
      | Some j =>
          if Indicator_eqb i j then Some (id d)
          else contributing_column registry' i
      | None => contributing_column registry' i
      end
  end.

(** Modelled from the spec: the lookup of a column in a row by
    [modules.risk] (section 4.5). *)
Fixpoint lookup_cell (cells : list (string * Cell)) (col : string)
  : option Cell :=
  match cells with
  | [] => None
  | (name, c) :: rest =>
      if String.eqb name col then Some c else lookup_cell rest col
  end.

(** Modelled from the spec: step 1 of the Risk Classifier of
    [modules.risk] (section 4.5): "compare value >= threshold using
    inclusive comparison; any null contributing value yields indicator
    state unknown".  A contributing cell that holds text is a mismatch of
    table and registry. *)
Definition indicator_state (i : Indicator) (c : Cell) (threshold : Q)
  : ClassificationError + IndicatorState :=
  match c with
  | CNull => inr unknown
  | CNum value =>
      inr (if Qle_bool threshold value then exceeded else not_exceeded)
  | CStr _ => inl (column_not_numeric i)
  end.

(** Modelled from the spec: the contributing statistic of an indicator
    in a row, as [modules.risk] looks it up (section 4.5). *)
Definition contributing_cell (registry : list DatasetDescriptor) (row : Row)
  (i : Indicator) : option Cell :=
  match contributing_column registry i with
  | None => None
  | Some col => lookup_cell (row_cells row) col
  end.

(** Modelled from the spec: one indicator of one row in [modules.risk]
    (section 4.5), with the ClassificationError for an absent column. *)
Definition evaluate_indicator (registry : list DatasetDescriptor)
  (thresholds : Thresholds) (row : Row) (i : Indicator)
  : ClassificationError + IndicatorState :=
  match contributing_cell registry row i with
  | None => inl (column_absent i)
  | Some c => indicator_state i c (threshold_of thresholds i)
  end.

Section Classifier.
(** Step 2 of the classifier: the rule table that combines the four
    states is not part of the specification; it is a parameter. *)
Variable rule_table : IndicatorStates -> RiskLevel.

(** Modelled from the spec: the classification of one row by
    [modules.risk] (section 4.5): the four states, then the label the rule
    table gives them. *)
Definition classify_row (registry : list DatasetDescriptor)
  (thresholds : Thresholds) (row : Row)
  : ClassificationError + (IndicatorStates * RiskLevel) :=
  match evaluate_indicator registry thresholds row ind_1 with
  | inl e => inl e
  | inr s1 =>
  match evaluate_indicator registry thresholds row ind_2 with
  | inl e => inl e
  | inr s2 =>
  match evaluate_indicator registry thresholds row ind_3 with
  | inl e => inl e
  | inr s3 =>
  match evaluate_indicator registry thresholds row ind_4 with
  | inl e => inl e
  | inr s4 =>
      let states := mkStates s1 s2 s3 s4 in
      inr (states, rule_table states)
  end end end end.

(** Modelled from the spec: the classification of the rows by
    [modules.risk], one after the other (section 4.5). *)
Fixpoint classify_rows (registry : list DatasetDescriptor)
  (thresholds : Thresholds) (rows : list Row)
  : ClassificationError + list (IndicatorStates * RiskLevel) :=
  match rows with
  | [] => inr []
  | row :: rows' =>
      match classify_row registry thresholds row with
      | inl e => inl e
      | inr r =>
          match classify_rows registry thresholds rows' with
          | inl e => inl e
          | inr rs => inr (r :: rs)
          end
      end
  end.

(** Modelled from the spec: classify(table, thresholds) of section 4.5,
    the classifier of [modules.risk]: the four indicator states and the
    label of every row, in row order. *)
Definition classify (registry : list DatasetDescriptor)
  (table : StatisticsTable) (thresholds : Thresholds)
  : ClassificationError + list (IndicatorStates * RiskLevel) :=
  classify_rows registry thresholds (table_rows table).
End Classifier.
End Engine.

(** ** Test doubles

    A small set of collaborators to run the route on: a feature is its
    property dictionary, a feature collection a list of features; the input
    string is ignored and the given collection loaded. *)

Definition Feature : Type := list (string * Cell).

Definition property (f : Feature) (key : string) : Cell :=
  match Engine.lookup_cell f key with
  | Some c => c
  | None => CNull
  end.

(** One column per property of the first feature. *)
Definition features_to_dataframe (fc : list Feature) : DataFrame :=
  match fc with
  | [] => []
  | f :: _ => map (fun kv => (fst kv, map (fun g => property g (fst kv)) fc)) f
  end.

Definition digit_of (c : ascii) : option Z :=
  let n := Z.of_nat (nat_of_ascii c) in
  if (48 <=? n) && (n <=? 57) then Some (n - 48) else None.

Fixpoint parse_fraction (s : string) (num : Z) (den : positive) : option Q :=
  match s with
  | EmptyString => Some (num # den)
  | String c rest =>
      match digit_of c with
      | Some d => parse_fraction rest (10 * num + d) (10 * den)
      | None => None
      end
  end.

Fixpoint parse_integer (s : string) (num : Z) (seen_digit : bool) : option Q :=
  match s with
  | EmptyString => if seen_digit then Some (num # 1) else None
  | String c rest =>
      if Ascii.eqb c "." then
        if seen_digit then parse_fraction rest num 1 else None
      else
        match digit_of c with
        | Some d => parse_integer rest (10 * num + d) true
        | None => None
        end
  end.

(** Plain decimal notation: an optional minus sign, digits, an optional
    fraction. *)
Definition parse_decimal (s : string) : option Q :=
  match s with
  | String "-" rest => option_map Qopp (parse_integer rest 0 false)
  | _ => parse_integer s 0 false
  end.

(** The value the test doubles read in a cell, after pandas 2: a number
    (kept exact), NaN for a missing value and for the empty string, nothing
    for any other string that is not a plain decimal. *)
Definition decimal_cell (c : Cell) : option (option Q) :=
  match c with
  | CNull => Some None
  | CNum x => Some (Some x)
  | CStr EmptyString => Some None
  | CStr s => option_map (@Some Q) (parse_decimal s)
  end.

(** [pd.to_numeric(s, errors='ignore')] of pandas 2 on plain decimals: the
    column is converted when every value of it is. *)
Fixpoint decimal_to_numeric (s : Series) : option (list (option Q)) :=
  match s with
  | [] => Some []
  | c :: rest =>
      match decimal_cell c, decimal_to_numeric rest with
      | Some v, Some vs => Some (v :: vs)
      | _, _ => None
      end
  end.

Definition doubles (fc : list Feature) (stats_fail : bool) : Collaborators :=
  {| FeatureCollection := list Feature;
     ee_Initialize := fun _ => inr tt;
     ee_FeatureCollection := fun _ => inr fc;
     json_FeatureCollection := fun _ => inr fc;
     size_getInfo := fun c => inr (Z.of_nat (List.length c));
     get_stats := fun unit_seen c =>
       if stats_fail then inl "Computation timed out."
       else inr (map (fun f => (f ++ [("Unit", CStr unit_seen)])%list) c);
     geemap_ee_to_pandas := fun c => inr (features_to_dataframe c);
     collection_properties_to_df := fun c => inr (features_to_dataframe c);
     pd_to_numeric := decimal_to_numeric;
     whisp_risk := fun _ df _ _ _ _ =>
       inr (df ++ [("EUDR_risk", repeat (CStr "low") (df_nrows df))])%list |}.

Definition example_plot (name : string) (cover : string) : Feature :=
  [("Plot_ID", CStr name); ("Country", CStr "Brazil"); ("Cover", CStr cover)].

Definition example_request (it : InputType) (u : OutputUnit) (risk : bool)
  : AnalyzeRequest :=
  mkAnalyzeRequest it "projects/ee-whisp/assets/example_plots" u risk
    (Finite 10) (Finite 10) (Finite 0) (Finite 0).

Definition fresh_world : World := {| percent_or_ha := "ha"; calls := [] |}.

(** The events a run added to the log. *)
Definition new_calls (before after : World) : list Event :=
  skipn (List.length (calls before)) (calls after).

(** The collection a request designates, when it loads. *)
Definition input_collection (E : Collaborators) (request : AnalyzeRequest)
  : string + FeatureCollection E :=
  match input_type request with
  | GEE_ASSET => ee_FeatureCollection E (input_data request)
  | GEOJSON => json_FeatureCollection E (input_data request)
  end.

(** ** The vocabulary of the properties *)

(** A percentage: a finite value between 0 and 100, both included. *)
Definition in_percent_range (x : pyfloat) : Prop :=
  match x with
  | Finite q => (0 <= q /\ q <= 100)%Q
  | _ => False
  end.

(** The body of the service's own threshold test: indicator 1 at 150. *)
Definition body_threshold_150 : RequestBody :=
  {| body_input_type := Some "gee_asset";
     body_input_data := Some "projects/ee-whisp/assets/test";
     body_output_unit := None;
     body_calculate_risk := None;
     body_ind_1_threshold := Some (Finite 150);
     body_ind_2_threshold := None;
     body_ind_3_threshold := None;
     body_ind_4_threshold := None |}.


(** Two plots whose "Cover" property is a numeric string in one and text
    in the other. *)
Definition two_plots : list Feature :=
  [example_plot "p1" "1.5"; example_plot "p2" "abc"].

(** A collection one feature over the limit. *)
Definition many_plots : list Feature := repeat (example_plot "p" "1") 501.

(** Whether the loop hands a column of this name to pandas: the name is
    not exempt and occurs once among the columns. *)
Definition is_coercible (columns : list string) (name : string) : bool :=
  negb (is_metadata name)
  && Nat.eqb (count_occ string_dec columns name) 1.

(** What the loop does to one column of a frame with these columns. *)
Definition coerced_column (E : Collaborators) (columns : list string)
  (c : string * Series) : string * Series :=
  (fst c,
   if is_coercible columns (fst c) then to_numeric_ignore E (snd c)
   else snd c).

(** A frame with one name on two columns. *)
Definition repeated_name_frame : DataFrame :=
  [("Cover", [CStr "1.5"]); ("Cover", [CStr "2.5"]); ("Loss", [CStr "3"])].

(** A pandas that refuses [errors='ignore']: every call raises. *)
Definition doubles_pandas_3 (fc : list Feature) : Collaborators :=
  {| FeatureCollection := list Feature;
     ee_Initialize := fun _ => inr tt;
     ee_FeatureCollection := fun _ => inr fc;
     json_FeatureCollection := fun _ => inr fc;
     size_getInfo := fun c => inr (Z.of_nat (List.length c));
     get_stats := fun unit_seen c =>
       inr (map (fun f => (f ++ [("Unit", CStr unit_seen)])%list) c);
     geemap_ee_to_pandas := fun c => inr (features_to_dataframe c);
     collection_properties_to_df := fun c => inr (features_to_dataframe c);
     pd_to_numeric := fun _ => None;
     whisp_risk := fun _ df _ _ _ _ =>
       inr (df ++ [("EUDR_risk", repeat (CStr "low") (df_nrows df))])%list |}.

Section EngineVocabulary.
Import Engine.
Local Open Scope Q_scope.

(** The raw value of plot [i] and layer [j]. *)
Definition raw_at (raw_matrix : list (list Cell)) (i j : nat) : Cell :=
  nth j (nth i raw_matrix []) CNull.

(** The cell a conversion result leaves in the table. *)
Definition cell_of (r : ConversionError + Cell) : Cell :=
  match r with inr c => c | inl _ => CNull end.

(** The (layer unit, requested unit) pairs that call for an
    area<->percent conversion. *)
Definition needs_conversion (u : Unit) (r : RequestedUnit) : bool :=
  match u, r with
  | area_unit, req_percent_of_plot => true
  | percent_of_plot, req_area => true
  | _, _ => false
  end.

(** The unit roundoff of binary64, 2^-53. *)
Definition unit_roundoff : Q := 1 # 9007199254740992.

(** The magnitudes the round trip is safe for: from 1e-300 to 1e300. *)
Definition safe_min : Q := 1 # (10 ^ 300).
Definition safe_max : Q := inject_Z (10 ^ 300).

Definition in_safe_range (x : Q) : Prop :=
  safe_min <= Qabs x /\ Qabs x <= safe_max.

(** The smallest positive binary64 value, 2^-1074. *)
Definition smallest_subnormal : Q := pow2 (-1074).

(** The tolerance of the round trip, 1e-9. *)
Definition tolerance : Q := 1 # 1000000000.

(** The relative error after one more rounded operation. *)
Definition grow (u e : Q) : Q := e + u + e * u.





End EngineVocabulary.

(** ** The scenarios of the specification *)

Module Scenarios.
Import Engine.
Local Open Scope Q_scope.

(** Exact arithmetic, results in lowest terms. *)
Definition exact : Q -> Q := Qred.

(** "registry with 3 datasets (tree_cover area-unit, commodity
    percent-unit, water boolean), 2 plots (area=10ha and area=0ha)" *)
Definition registry : list DatasetDescriptor :=
  [mkDataset "tree_cover" area_unit (Some ind_1);
   mkDataset "commodity" percent_of_plot (Some ind_2);
   mkDataset "water" boolean None].

Definition plot_1 : Plot := mkPlot "plot 1" 10.
Definition plot_2 : Plot := mkPlot "plot 2" 0.

Definition raw_matrix : list (list Cell) :=
  [[CNum 5; CNum 20; CNum 1];
   [CNum 3; CNum 40; CNum 0]].

(** "one plot, all four indicator thresholds = 10.0, contributing
    statistics = [10.0, 9.9, null, 5.0]" *)
Definition indicator_registry : list DatasetDescriptor :=
  [mkDataset "tree_cover" percent_of_plot (Some ind_1);
   mkDataset "commodity" percent_of_plot (Some ind_2);
   mkDataset "disturbance_before" percent_of_plot (Some ind_3);
   mkDataset "disturbance_after" percent_of_plot (Some ind_4)].

Definition indicator_table : StatisticsTable :=
  mkTable
    [mkRow plot_1 [("tree_cover", CNum 10); ("commodity", CNum (99 # 10));
                   ("disturbance_before", CNull);
                   ("disturbance_after", CNum 5)]]
    [].

Definition all_ten : Thresholds := mkThresholds 10 10 10 10.

(** Four different thresholds over layers registered out of indicator
    order, a layer without indicator among them and a second layer for
    indicator 1 that is not read. *)
Definition mixed_registry : list DatasetDescriptor :=
  [mkDataset "water" boolean None;
   mkDataset "disturbance_after" percent_of_plot (Some ind_4);
   mkDataset "commodity" percent_of_plot (Some ind_2);
   mkDataset "tree_cover" percent_of_plot (Some ind_1);
   mkDataset "disturbance_before" percent_of_plot (Some ind_3);
   mkDataset "tree_cover_2" percent_of_plot (Some ind_1)].

Definition mixed_row : Row :=
  mkRow plot_1 [("water", CNum 1); ("disturbance_after", CNum 3);
                ("commodity", CNum 15); ("tree_cover", CNum 10);
                ("disturbance_before", CNull); ("tree_cover_2", CNum 0)].

Definition mixed_table : StatisticsTable := mkTable [mixed_row] [].

(** A stand-in for the rule table the specification leaves open. *)
Definition example_rule (s : IndicatorStates) : RiskLevel :=
  match state_1 s, state_2 s, state_3 s, state_4 s with
  | unknown, _, _, _ | _, unknown, _, _
  | _, _, unknown, _ | _, _, _, unknown => MORE_INFO_NEEDED
  | not_exceeded, not_exceeded, not_exceeded, not_exceeded => LOW
  | _, _, _, _ => HIGH
  end.

End Scenarios.

(** ** The rest of the service: health endpoint, settings, client *)

(** core/config.py: the settings the route does not read. *)
Definition API_VERSION : string := "1.0.0".
Definition DEFAULT_IND_1_THRESHOLD : pyfloat := Finite 10.
Definition DEFAULT_IND_2_THRESHOLD : pyfloat := Finite 10.
Definition DEFAULT_IND_3_THRESHOLD : pyfloat := Finite 0.
Definition DEFAULT_IND_4_THRESHOLD : pyfloat := Finite 0.

Definition InputType_value (t : InputType) : string :=
  match t with GEE_ASSET => "gee_asset" | GEOJSON => "geojson" end.

(** models/schemas.py: [HealthResponse]. *)
Record HealthResponse : Type := mkHealthResponse {
  health_status : string;
  version : string;
  gee_initialized : bool
}.

(** api/routes.py: [health_check]. *)
Definition health_check (E : Collaborators) : M HealthResponse :=
  bind (initialize_gee E) (fun gee_status =>
  ret {| health_status := if gee_status then "healthy" else "degraded";
         version := API_VERSION;
         gee_initialized := gee_status |}).

(** The calls of a run that goes all the way, in order. *)
Definition full_run_calls (request : AnalyzeRequest) (w : World) : list Event :=
  [ev_ee_Initialize; ev_ee_FeatureCollection; ev_size_getInfo;
   ev_set_percent_or_ha (OutputUnit_value (output_unit request));
   ev_get_stats (OutputUnit_value (output_unit request));
   ev_ee_to_pandas;
   ev_set_percent_or_ha (percent_or_ha w);
   ev_whisp_risk].

(** The detail of the 400 the route raises when the input does not load. *)
Definition load_failure_detail (t : InputType) (msg : string) : string :=
  match t with
  | GEE_ASSET => "Failed to load GEE asset: " ++ msg
  | GEOJSON => "Failed to parse GeoJSON: Failed to parse GeoJSON: " ++ msg
  end.

(** What [fc_to_dataframe] makes of the result of the converter it
    called. *)
Definition converted (r : string + DataFrame) : PyExc + DataFrame :=
  match r with
  | inl msg =>
      inl (Exception
             ("Failed to convert FeatureCollection to DataFrame: " ++ msg))
  | inr df => inr df
  end.

(** The names of the columns of a frame with the length of each. *)
Definition df_shape (df : DataFrame) : list (string * nat) :=
  map (fun c => (fst c, List.length (snd c))) df.

(** The requests of a process, served one after the other: the route has
    no [await], so a request runs to its end before the next starts. *)
Fixpoint serve (E : Collaborators) (requests : list AnalyzeRequest)
  (w : World) : World :=
  match requests with
  | [] => w
  | request :: rest => serve E rest (snd (analyze_plots E request w))
  end.

(** The run up to the statistics: Earth Engine initialised, the input
    loaded, its size fetched and between 1 and the limit. *)
Definition reaches_statistics (E : Collaborators) (request : AnalyzeRequest)
  (fc : FeatureCollection E) (n : Z) : Prop :=
  ee_Initialize E None = inr tt
  /\ input_collection E request = inr fc
  /\ size_getInfo E fc = inr n
  /\ n <> 0
  /\ n <= WHISP_THRESHOLD_TO_DRIVE settings.

(** Where a test double is to fail. *)
Inductive Failure : Type :=
| no_failure
| fail_initialize
| fail_load
| fail_size
| fail_statistics
| fail_conversion
| fail_risk.

Definition Failure_eqb (a b : Failure) : bool :=
  match a, b with
  | no_failure, no_failure | fail_initialize, fail_initialize
  | fail_load, fail_load | fail_size, fail_size
  | fail_statistics, fail_statistics | fail_conversion, fail_conversion
  | fail_risk, fail_risk => true
  | _, _ => false
  end.

(** The test doubles again, with one collaborator failing. *)
Definition doubles_failing (fc : list Feature) (f : Failure) : Collaborators :=
  {| FeatureCollection := list Feature;
     ee_Initialize := fun _ =>
       if Failure_eqb f fail_initialize then inl "Not signed up."
       else inr tt;
     ee_FeatureCollection := fun _ =>
       if Failure_eqb f fail_load then inl "Asset not found." else inr fc;
     json_FeatureCollection := fun _ =>
       if Failure_eqb f fail_load then inl "Expecting value" else inr fc;
     size_getInfo := fun c =>
       if Failure_eqb f fail_size then inl "Quota exceeded."
       else inr (Z.of_nat (List.length c));
     get_stats := fun unit_seen c =>
       if Failure_eqb f fail_statistics then inl "Computation timed out."
       else inr (map (fun g => (g ++ [("Unit", CStr unit_seen)])%list) c);
     geemap_ee_to_pandas := fun c =>
       if Failure_eqb f fail_conversion then inl "Too many properties."
       else inr (features_to_dataframe c);
     collection_properties_to_df := fun c => inr (features_to_dataframe c);
     pd_to_numeric := decimal_to_numeric;
     whisp_risk := fun _ df _ _ _ _ =>
       if Failure_eqb f fail_risk then inl "Column missing."
       else inr (df ++ [("EUDR_risk", repeat (CStr "low") (df_nrows df))])%list
  |}.

(** One plot, as in the examples of the service. *)
Definition one_plot : list Feature := [example_plot "p1" "12.5"].


(** A body with the two required fields, a unit and one threshold. *)
Definition body_partial : RequestBody :=
  {| body_input_type := Some "geojson";
     body_input_data := Some "{}";
     body_output_unit := Some "percent";
     body_calculate_risk := None;
     body_ind_1_threshold := None;
     body_ind_2_threshold := Some (Finite (25 # 10));
     body_ind_3_threshold := None;
     body_ind_4_threshold := None |}.

(** Test doubles whose statistics fail for one unit only. *)
Definition doubles_percent_fails (fc : list Feature) : Collaborators :=
  {| FeatureCollection := list Feature;
     ee_Initialize := fun _ => inr tt;
     ee_FeatureCollection := fun _ => inr fc;
     json_FeatureCollection := fun _ => inr fc;
     size_getInfo := fun c => inr (Z.of_nat (List.length c));
     get_stats := fun unit_seen c =>
       if String.eqb unit_seen "percent" then inl "Computation timed out."
       else inr (map (fun g => (g ++ [("Unit", CStr unit_seen)])%list) c);
     geemap_ee_to_pandas := fun c => inr (features_to_dataframe c);
     collection_properties_to_df := fun c => inr (features_to_dataframe c);
     pd_to_numeric := decimal_to_numeric;
     whisp_risk := fun unit_seen df _ _ _ _ =>
       inr (df ++ [("Risk_unit", repeat (CStr unit_seen) (df_nrows df))])%list
  |}.

(** ** tests/example_client.py *)

(** [s.rstrip("/")] *)
Fixpoint rstrip_slash (s : string) : string :=
  match s with
  | EmptyString => EmptyString
  | String c rest =>
      match rstrip_slash rest with
      | EmptyString =>
          if Ascii.eqb c "/" then EmptyString else String c EmptyString
      | String c' rest' => String c (String c' rest')
      end
  end.

Record WhispAPIClient : Type := mkWhispAPIClient {
  base_url : string
}.

(** [WhispAPIClient.__init__] *)
Definition WhispAPIClient_init (url : string) : WhispAPIClient :=
  {| base_url := rstrip_slash url |}.

(** The URLs the client requests: [f"{self.base_url}/health"] and
    [f"{self.base_url}/analyze"]. *)
Definition health_url (c : WhispAPIClient) : string := base_url c ++ "/health".
Definition analyze_url (c : WhispAPIClient) : string :=
  base_url c ++ "/analyze".

(** The payload of [analyze_gee_asset]: every field is given. *)
Definition analyze_gee_asset_payload (asset_path output_unit : string)
  (calculate_risk : bool) (t1 t2 t3 t4 : pyfloat) : RequestBody :=
  {| body_input_type := Some "gee_asset";
     body_input_data := Some asset_path;
     body_output_unit := Some output_unit;
     body_calculate_risk := Some calculate_risk;
     body_ind_1_threshold := Some t1;
     body_ind_2_threshold := Some t2;
     body_ind_3_threshold := Some t3;
     body_ind_4_threshold := Some t4 |}.

(** The payload of [analyze_geojson]: a dictionary is serialised with
    [json.dumps], a string is sent as it is. *)
Definition analyze_geojson_payload {J : Type} (json_dumps : J -> string)
  (geojson : J + string) (output_unit : string)
  (calculate_risk : bool) (t1 t2 t3 t4 : pyfloat) : RequestBody :=
  let geojson_str :=
    match geojson with
    | inl d => json_dumps d
    | inr str => str
    end in
  {| body_input_type := Some "geojson";
     body_input_data := Some geojson_str;
     body_output_unit := Some output_unit;
     body_calculate_risk := Some calculate_risk;
     body_ind_1_threshold := Some t1;
     body_ind_2_threshold := Some t2;
     body_ind_3_threshold := Some t3;
     body_ind_4_threshold := Some t4 |}.

(** [requests.HTTPError], with the status of the reply. *)
Inductive HTTPError : Type := mkHTTPError (status_code : Z).

(** [response.raise_for_status(); return response.json()]: a status
    from 400 to 599 raises, any other reply is returned as its JSON. *)
Definition raise_for_status (r : HTTPReply) : HTTPError + HTTPReply :=
  let c := reply_status r in
  if (400 <=? c) && (c <? 600) then inl (mkHTTPError c) else inr r.

(** [WhispAPIClient.analyze_gee_asset] against this service; the
    connection itself is taken to work. *)
Definition analyze_gee_asset (E : Collaborators) (asset_path output_unit : string)
  (calculate_risk : bool) (t1 t2 t3 t4 : pyfloat) (w : World)
  : (HTTPError + HTTPReply) * World :=
  let payload :=
    analyze_gee_asset_payload asset_path output_unit calculate_risk
      t1 t2 t3 t4 in
  let reply := post_analyze E payload w in
  (raise_for_status (fst reply), snd reply).

(** [WhispAPIClient.analyze_geojson] against this service. *)
Definition analyze_geojson {J : Type} (json_dumps : J -> string)
  (E : Collaborators) (geojson : J + string) (output_unit : string)
  (calculate_risk : bool) (t1 t2 t3 t4 : pyfloat) (w : World)
  : (HTTPError + HTTPReply) * World :=
  let payload :=
    analyze_geojson_payload json_dumps geojson output_unit calculate_risk
      t1 t2 t3 t4 in
  let reply := post_analyze E payload w in
  (raise_for_status (fst reply), snd reply).

(** Whether a string ends in a slash. *)
Fixpoint ends_with_slash (s : string) : bool :=
  match s with
  | EmptyString => false
  | String c EmptyString => Ascii.eqb c "/"
  | String _ rest => ends_with_slash rest
  end.

(** [k] slashes. *)
Fixpoint slashes (k : nat) : string :=
  match k with
  | O => EmptyString
  | S k' => String "/" (slashes k')
  end.

(** * Properties of the route *)

Lemma skipn_length_app {A : Type} (l l' : list A) :
  skipn (List.length l) (l ++ l') = l'.
Proof. induction l as [|x l IH]; simpl; auto. Qed.

Lemma new_calls_app (w : World) (u : string) (l : list Event) :
  new_calls w {| percent_or_ha := u; calls := calls w ++ l |} = l.
Proof. unfold new_calls; simpl. apply skipn_length_app. Qed.

Ltac unfold_route :=
  unfold analyze_plots, run_whisp_analysis, calculate_risk_step, parse_input,
    geojson_to_ee, fc_to_dataframe, initialize_gee, input_collection,
    try_except, bind, ret, raise, call, get_percent_or_ha,
    set_percent_or_ha, log in *;
  simpl in *.

Example run_success :
  analyze_plots (doubles [example_plot "p1" "12.5"] false)
    (example_request GEE_ASSET PERCENT true) fresh_world
  = (inr {| status := "success";
            num_features := 1;
            response_output_unit := "percent";
            risk_calculated := true;
            results := [[("Plot_ID", CStr "p1"); ("Country", CStr "Brazil");
                         ("Cover", CNum (125 # 10));
                         ("Unit", CStr "percent");
                         ("EUDR_risk", CStr "low")]];
            message := Some "Successfully analyzed 1 features" |},
     {| percent_or_ha := "ha";
        calls := [ev_ee_Initialize; ev_ee_FeatureCollection; ev_size_getInfo;
                  ev_set_percent_or_ha "percent"; ev_get_stats "percent";
                  ev_ee_to_pandas; ev_set_percent_or_ha "ha";
                  ev_whisp_risk] |}).
Proof. vm_compute. reflexivity. Qed.

(** One case split of a run, on the next collaborator it calls. *)
Ltac route_step :=
  match goal with
  | |- context [ee_Initialize ?E ?a] =>
      destruct (ee_Initialize E a) as [?|[]] eqn:?
  | |- context [input_type ?r] => destruct (input_type r) eqn:?
  | |- context [ee_FeatureCollection ?E ?a] =>
      destruct (ee_FeatureCollection E a) eqn:?
  | |- context [json_FeatureCollection ?E ?a] =>
      destruct (json_FeatureCollection E a) eqn:?
  | |- context [size_getInfo ?E ?a] => destruct (size_getInfo E a) eqn:?
  | |- context [Z.eqb ?n 0] => destruct (Z.eqb_spec n 0)
  | |- context [Z.gtb ?n ?m] => destruct (Z.gtb_spec n m)
  | |- context [Z.leb ?n ?m] =>
      destruct (Z.leb_spec n m); [|exfalso; simpl in *; lia]
  | |- context [get_stats ?E ?u ?c] => destruct (get_stats E u c) eqn:?
  | |- context [geemap_ee_to_pandas ?E ?c] =>
      destruct (geemap_ee_to_pandas E c) eqn:?
  | |- context [calculate_risk ?r] => destruct (calculate_risk r) eqn:?
  | |- context [whisp_risk ?E ?u ?d ?a ?b ?c ?e] =>
      destruct (whisp_risk E u d a b c e) eqn:?
  end; simpl.

Ltac route_cases :=
  unfold_route; repeat route_step;
  rewrite <- ?app_assoc; simpl; rewrite ?new_calls_app.

Section RouteProperties.
Variable E : Collaborators.

(** C10. A request whose input loads as a feature collection of zero
    features is answered with HTTP 400, "Input contains no features"; the
    run has initialised Earth Engine, loaded the collection and asked its
    size, and nothing else: no statistics, no classification, and the
    global unit is untouched. *)
Theorem empty_collection_rejected
  (request : AnalyzeRequest) (w : World) (fc : FeatureCollection E)
  (Hinit : ee_Initialize E None = inr tt)
  (Hload : input_collection E request = inr fc)
  (Hsize : size_getInfo E fc = inr 0) :
  analyze_plots E request w
  = (inl (HTTPException 400 "Input contains no features"),
     {| percent_or_ha := percent_or_ha w;
        calls := calls w ++ [ev_ee_Initialize; ev_ee_FeatureCollection;
                             ev_size_getInfo] |})
  /\ (forall b,
        validate_AnalyzeRequest b = Some request ->
        fst (post_analyze E b w)
        = ReplyError 400 "Input contains no features")
  /\ (forall u, ~ In (ev_get_stats u)
                  (new_calls w (snd (analyze_plots E request w))))
  /\ ~ In ev_whisp_risk (new_calls w (snd (analyze_plots E request w))).
Proof.
  assert (Hrun : analyze_plots E request w
    = (inl (HTTPException 400 "Input contains no features"),
       {| percent_or_ha := percent_or_ha w;
          calls := calls w ++ [ev_ee_Initialize; ev_ee_FeatureCollection;
                               ev_size_getInfo] |})).
  { unfold_route. rewrite Hinit. simpl.
    destruct (input_type request); simpl; rewrite Hload; simpl;
      rewrite Hsize; simpl; rewrite <- !app_assoc; reflexivity. }
  split; [exact Hrun|]. split.
  { intros b Hb. unfold post_analyze. rewrite Hb, Hrun. reflexivity. }
  rewrite Hrun. simpl. rewrite new_calls_app. split.
  - intros u [H|[H|[H|[]]]]; discriminate H.
  - intros [H|[H|[H|[]]]]; discriminate H.
Qed.

(** C9. A request whose collection has more than
    WHISP_THRESHOLD_TO_DRIVE = 500 features is answered "too_large" with
    no results and no risk, after the size query and nothing else; and in
    every run whatsoever the large-count conversion is never called, the
    data-frame conversion running only on at most 500 features. *)
Theorem oversized_collection_not_analysed
  (request : AnalyzeRequest) (w : World) (fc : FeatureCollection E) (n : Z)
  (Hinit : ee_Initialize E None = inr tt)
  (Hload : input_collection E request = inr fc)
  (Hsize : size_getInfo E fc = inr n)
  (Hbig : WHISP_THRESHOLD_TO_DRIVE settings < n) :
  WHISP_THRESHOLD_TO_DRIVE settings = 500
  /\ (exists response,
        analyze_plots E request w
        = (inr response,
           {| percent_or_ha := percent_or_ha w;
              calls := calls w ++ [ev_ee_Initialize; ev_ee_FeatureCollection;
                                   ev_size_getInfo] |})
        /\ status response = "too_large"
        /\ results response = []
        /\ risk_calculated response = false)
  /\ (forall u, ~ In (ev_get_stats u)
                  (new_calls w (snd (analyze_plots E request w))))
  /\ ~ In ev_whisp_risk (new_calls w (snd (analyze_plots E request w)))
  /\ (forall request' w',
        ~ In ev_collection_properties_to_df
            (new_calls w' (snd (analyze_plots E request' w')))
        /\ (In ev_ee_to_pandas
              (new_calls w' (snd (analyze_plots E request' w'))) ->
            exists fc' n',
              input_collection E request' = inr fc'
              /\ size_getInfo E fc' = inr n'
              /\ n' <= 500)).
Proof.
  assert (Hrun : analyze_plots E request w
    = (inr (too_large_response request n),
       {| percent_or_ha := percent_or_ha w;
          calls := calls w ++ [ev_ee_Initialize; ev_ee_FeatureCollection;
                               ev_size_getInfo] |})).
  { unfold_route. rewrite Hinit. simpl.
    destruct (input_type request); simpl; rewrite Hload; simpl;
      rewrite Hsize; simpl; rewrite <- !app_assoc;
      (destruct (Z.eqb_spec n 0); [lia|]);
      (destruct (Z.gtb_spec n 500); [reflexivity|lia]). }
  split; [reflexivity|]. split.
  { exists (too_large_response request n). rewrite Hrun. auto. }
  rewrite Hrun. simpl. rewrite new_calls_app. split.
  { intros u [H|[H|[H|[]]]]; discriminate H. }
  split.
  { intros [H|[H|[H|[]]]]; discriminate H. }
  clear. intros request w. split.
  - route_cases; simpl; intuition discriminate.
  - route_cases;
      first [ solve [intros Hin; simpl in Hin; intuition discriminate]
            | solve [intros _; do 2 eexists; repeat split; eauto] ].
Qed.

(** C4, as amended.  The requested unit reaches the statistics through
    the shared setting: a run writes to it nothing but the requested unit
    and, afterwards, the value it found; [get_stats] reads the requested
    unit from it; and unless the run ends in "Failed to run analysis" the
    setting is, after the run, what it was before. *)
Theorem unit_set_for_statistics_then_restored
  (request : AnalyzeRequest) (w : World) :
  (forall v,
      In (ev_set_percent_or_ha v)
         (new_calls w (snd (analyze_plots E request w))) ->
      v = OutputUnit_value (output_unit request) \/ v = percent_or_ha w)
  /\ (forall u,
        In (ev_get_stats u)
           (new_calls w (snd (analyze_plots E request w))) ->
        u = OutputUnit_value (output_unit request))
  /\ ((forall msg,
         fst (analyze_plots E request w)
         <> inl (HTTPException 500 ("Failed to run analysis: " ++ msg))) ->
      percent_or_ha (snd (analyze_plots E request w)) = percent_or_ha w).
Proof.
  split; [|split].
  - route_cases; simpl; intros v Hv;
      repeat (destruct Hv as [Hv|Hv]; try discriminate Hv;
              try (injection Hv as <-; auto)); contradiction.
  - route_cases; simpl; intros v Hv;
      repeat (destruct Hv as [Hv|Hv]; try discriminate Hv;
              try (injection Hv as <-; auto)); contradiction.
  - route_cases; intros Hres;
      first [ reflexivity | exfalso; eapply Hres; reflexivity ].
Qed.

(** A run repeated right after itself gives the same result, whatever
    the first run left in the shared setting. *)
Lemma analyze_plots_repeatable (request : AnalyzeRequest) (w : World) :
  fst (analyze_plots E request (snd (analyze_plots E request w)))
  = fst (analyze_plots E request w).
Proof.
  route_cases; simpl in *; congruence.
Qed.
End RouteProperties.

(** * Properties of request validation *)

Lemma bounds_check_iff (x : pyfloat) :
  float_ge x (Finite 0) && float_le x (Finite 100) = true
  <-> in_percent_range x.
Proof.
  destruct x as [q| | |]; unfold float_le; simpl.
  - rewrite andb_true_iff, !Qle_bool_iff. tauto.
  - split; [intros H; discriminate H|tauto].
  - split; [intros H; discriminate H|tauto].
  - split; [intros H; discriminate H|tauto].
Qed.



Lemma default_thresholds_in_range :
  in_percent_range (Finite 10) /\ in_percent_range (Finite 0).
Proof. simpl. split; split; discriminate. Qed.



Example test_threshold_validation :
  post_analyze (doubles [] false) body_threshold_150 fresh_world
  = (ReplyValidationError, fresh_world).
Proof. reflexivity. Qed.



Example nan_threshold_rejected :
  validate_AnalyzeRequest
    {| body_input_type := Some "geojson";
       body_input_data := Some "{}";
       body_output_unit := Some "percent";
       body_calculate_risk := Some true;
       body_ind_1_threshold := None;
       body_ind_2_threshold := None;
       body_ind_3_threshold := Some NaN;
       body_ind_4_threshold := None |} = None.
Proof. reflexivity. Qed.

(** * Properties of the numeric coercion *)

Section Coercion.
Variable E : Collaborators.
Local Open Scope list_scope.

Lemma coerced_column_name (columns : list string) (c : string * Series) :
  fst (coerced_column E columns c) = fst c.
Proof. reflexivity. Qed.

Lemma coerced_columns_names (columns : list string) (df : DataFrame) :
  df_columns (map (coerced_column E columns) df) = df_columns df.
Proof.
  unfold df_columns. rewrite map_map. now apply map_ext.
Qed.

Lemma df_getitem_skip (pre suf : DataFrame) (col : string) :
  ~ In col (df_columns pre) ->
  df_getitem (pre ++ suf) col = df_getitem suf col.
Proof.
  induction pre as [|[name s] pre IH]; simpl; intros Hnot; auto.
  destruct (String.eqb_spec name col) as [->|Hne].
  - exfalso. apply Hnot. now left.
  - apply IH. intros Hin. apply Hnot. now right.
Qed.

Lemma df_setitem_skip (pre suf : DataFrame) (col : string) (s : Series) :
  ~ In col (df_columns pre) ->
  df_setitem (pre ++ suf) col s = (pre ++ df_setitem suf col s)%list.
Proof.
  induction pre as [|[name old] pre IH]; simpl; intros Hnot; auto.
  destruct (String.eqb_spec name col) as [->|Hne].
  - exfalso. apply Hnot. now left.
  - f_equal. apply IH. intros Hin. apply Hnot. now right.
Qed.

(** A name that occurs once does not occur before its occurrence. *)
Lemma once_not_before (pre suf : list string) (name : string) :
  count_occ string_dec (pre ++ name :: suf) name = 1%nat -> ~ In name pre.
Proof.
  rewrite count_occ_app, count_occ_cons_eq by reflexivity.
  intros Hc. apply (count_occ_not_In string_dec). lia.
Qed.

Lemma coerce_column_at (pre suf : DataFrame) (name : string) (s : Series) :
  coerce_column E (pre ++ (name, s) :: suf) name
  = pre ++ coerced_column E (df_columns (pre ++ (name, s) :: suf)) (name, s)
        :: suf.
Proof.
  unfold coerce_column, coerced_column, is_coercible. simpl.
  destruct (is_metadata name); [reflexivity|]. simpl.
  destruct (Nat.eqb_spec
              (count_occ string_dec (df_columns (pre ++ (name, s) :: suf)) name)
              1) as [Hone|Hmore]; [|reflexivity].
  assert (Hnot : ~ In name (df_columns pre)).
  { unfold df_columns in *. rewrite map_app in Hone. simpl in Hone.
    exact (once_not_before _ _ _ Hone). }
  rewrite df_getitem_skip by assumption. simpl.
  rewrite String.eqb_refl.
  rewrite df_setitem_skip by assumption. simpl.
  now rewrite String.eqb_refl.
Qed.

Lemma coerce_loop (columns : list string) (suf pre : DataFrame) :
  columns = df_columns (pre ++ suf) ->
  fold_left (coerce_column E) (df_columns suf)
    (map (coerced_column E columns) pre ++ suf)
  = map (coerced_column E columns) (pre ++ suf).
Proof.
  revert pre. induction suf as [|[name s] suf IH]; intros pre Hcols; simpl.
  - now rewrite !app_nil_r.
  - rewrite coerce_column_at.
    replace (df_columns (map (coerced_column E columns) pre ++ (name, s) :: suf))
      with columns.
    + replace (map (coerced_column E columns) pre
               ++ coerced_column E columns (name, s) :: suf)
        with (map (coerced_column E columns) (pre ++ [(name, s)]) ++ suf)
        by (rewrite map_app, <- app_assoc; reflexivity).
      rewrite IH.
      * now rewrite <- app_assoc.
      * now rewrite <- app_assoc.
    + rewrite Hcols. unfold df_columns. rewrite !map_app, map_map.
      reflexivity.
Qed.

(** The loop is a map over the columns: a column is handed to pandas when
    its name is not exempt and occurs once, and kept otherwise. *)
Lemma coerce_numeric_columns_map (df : DataFrame) :
  coerce_numeric_columns E df = map (coerced_column E (df_columns df)) df.
Proof.
  unfold coerce_numeric_columns.
  exact (coerce_loop (df_columns df) df [] eq_refl).
Qed.

Lemma numeric_column_length (n : nat) (values : list (option Q)) :
  List.length (numeric_column n values) = n.
Proof. unfold numeric_column. now rewrite length_map, length_seq. Qed.

Lemma numeric_column_numeric (n : nat) (values : list (option Q)) :
  forallb is_numeric_cell (numeric_column n values) = true.
Proof.
  unfold numeric_column. apply forallb_forall. intros c Hin.
  apply in_map_iff in Hin. destruct Hin as [i [<- _]].
  now destruct (nth i values None).
Qed.

Lemma to_numeric_ignore_length (s : Series) :
  List.length (to_numeric_ignore E s) = List.length s.
Proof.
  unfold to_numeric_ignore.
  destruct (forallb is_numeric_cell s); [reflexivity|].
  destruct (pd_to_numeric E s); [apply numeric_column_length|reflexivity].
Qed.

(** All or nothing: the column pandas leaves is the column it got, or it
    holds no string. *)
Lemma to_numeric_ignore_cases (s : Series) :
  to_numeric_ignore E s = s
  \/ forallb is_numeric_cell (to_numeric_ignore E s) = true.
Proof.
  unfold to_numeric_ignore.
  destruct (forallb is_numeric_cell s); [now left|].
  destruct (pd_to_numeric E s); [right; apply numeric_column_numeric|now left].
Qed.

Lemma to_numeric_ignore_idempotent (s : Series) :
  to_numeric_ignore E (to_numeric_ignore E s) = to_numeric_ignore E s.
Proof.
  unfold to_numeric_ignore at 2 3.
  destruct (forallb is_numeric_cell s) eqn:Hs.
  - unfold to_numeric_ignore. now rewrite Hs.
  - destruct (pd_to_numeric E s) as [values|] eqn:Hp.
    + unfold to_numeric_ignore. now rewrite numeric_column_numeric.
    + unfold to_numeric_ignore. now rewrite Hs, Hp.
Qed.

(** C5, as amended.  The coercion keeps the frame's columns in place and
    treats a column as a whole: afterwards it is the column it was, or a
    column without any string.  It is the column it was when its name is
    exempt, when its name occurs more than once, when it holds no string,
    and when pandas does not convert it; otherwise it is the numeric
    column pandas made of it. *)
Theorem coercion_is_by_column
  (df : DataFrame) (k : nat) (name : string) (s : Series)
  (Hcol : nth_error df k = Some (name, s)) :
  df_columns (coerce_numeric_columns E df) = df_columns df
  /\ exists s',
       nth_error (coerce_numeric_columns E df) k = Some (name, s')
       /\ List.length s' = List.length s
       /\ (s' = s \/ forallb is_numeric_cell s' = true)
       /\ (is_metadata name = true -> s' = s)
       /\ (count_occ string_dec (df_columns df) name <> 1%nat -> s' = s)
       /\ (forallb is_numeric_cell s = true -> s' = s)
       /\ (pd_to_numeric E s = None -> s' = s)
       /\ (forall values,
              is_metadata name = false ->
              count_occ string_dec (df_columns df) name = 1%nat ->
              forallb is_numeric_cell s = false ->
              pd_to_numeric E s = Some values ->
              s' = numeric_column (List.length s) values).
Proof.
  rewrite (coerce_numeric_columns_map df).
  split; [apply coerced_columns_names|].
  exists (snd (coerced_column E (df_columns df) (name, s))). split.
  - rewrite nth_error_map, Hcol. reflexivity.
  - unfold coerced_column, is_coercible. simpl.
    split; [|split; [|split; [|split; [|split; [|split]]]]].
    + destruct (negb (is_metadata name)
                && Nat.eqb (count_occ string_dec (df_columns df) name) 1);
        [apply to_numeric_ignore_length|reflexivity].
    + destruct (negb (is_metadata name)
                && Nat.eqb (count_occ string_dec (df_columns df) name) 1);
        [apply to_numeric_ignore_cases|now left].
    + now intros ->.
    + intros Hmore. apply Nat.eqb_neq in Hmore. rewrite Hmore.
      now rewrite andb_false_r.
    + intros Hnum. unfold to_numeric_ignore. rewrite Hnum.
      now destruct (negb (is_metadata name)
                    && Nat.eqb (count_occ string_dec (df_columns df) name) 1).
    + intros Hnone. unfold to_numeric_ignore. rewrite Hnone.
      now destruct (negb (is_metadata name)
                    && Nat.eqb (count_occ string_dec (df_columns df) name) 1),
                   (forallb is_numeric_cell s).
    + intros values -> Hone Hstr Hsome. rewrite Hone. simpl.
      unfold to_numeric_ignore. now rewrite Hstr, Hsome.
Qed.
End Coercion.

(** * Runs of the route on the test doubles *)

(** C5, the claim as stated fails: in the column "Cover", which is no
    metadata column, "1.5" is numeric-looking and "abc" is not; the
    response still carries "1.5" as a string.  Whatever pandas does, the
    column cannot come out with the number beside the text. *)
Lemma numeric_string_beside_text_not_coerced :
  is_metadata "Cover" = false
  /\ parse_decimal "1.5" = Some (15 # 10)
  /\ parse_decimal "abc" = None
  /\ coerce_numeric_columns (doubles two_plots false)
       [("Plot_ID", [CStr "p1"; CStr "p2"]);
        ("Cover", [CStr "1.5"; CStr "abc"])]
     = [("Plot_ID", [CStr "p1"; CStr "p2"]);
        ("Cover", [CStr "1.5"; CStr "abc"])]
  /\ option_map results
       (match fst (analyze_plots (doubles two_plots false)
                     (example_request GEE_ASSET HECTARES false) fresh_world)
        with inr response => Some response | inl _ => None end)
     = Some [[("Plot_ID", CStr "p1"); ("Country", CStr "Brazil");
              ("Cover", CStr "1.5"); ("Unit", CStr "ha")];
             [("Plot_ID", CStr "p2"); ("Country", CStr "Brazil");
              ("Cover", CStr "abc"); ("Unit", CStr "ha")]]
  /\ (forall (E : Collaborators) (x : Q),
         coerce_numeric_columns E
           [("Plot_ID", [CStr "p1"; CStr "p2"]);
            ("Cover", [CStr "1.5"; CStr "abc"])]
         <> [("Plot_ID", [CStr "p1"; CStr "p2"]);
             ("Cover", [CNum x; CStr "abc"])]).
Proof.
  split; [reflexivity|]. split; [reflexivity|]. split; [reflexivity|].
  split; [vm_compute; reflexivity|]. split; [vm_compute; reflexivity|].
  intros E x. rewrite coerce_numeric_columns_map.
  unfold coerced_column, to_numeric_ignore. simpl.
  destruct (pd_to_numeric E [CStr "1.5"; CStr "abc"]) as [values|].
  - unfold numeric_column. simpl.
    destruct (nth 1 values None); intros H; discriminate H.
  - intros H; discriminate H.
Qed.

Lemma coercion_is_by_column_witness :
  nth_error (features_to_dataframe two_plots) 2
  = Some ("Cover", [CStr "1.5"; CStr "abc"])
  /\ nth_error
       (coerce_numeric_columns (doubles two_plots false)
          (features_to_dataframe two_plots)) 2
     = Some ("Cover", [CStr "1.5"; CStr "abc"]).
Proof.
  assert (Hcol : nth_error (features_to_dataframe two_plots) 2
                 = Some ("Cover", [CStr "1.5"; CStr "abc"]))
    by reflexivity.
  split; [exact Hcol|].
  destruct (coercion_is_by_column (doubles two_plots false)
              (features_to_dataframe two_plots) 2 "Cover"
              [CStr "1.5"; CStr "abc"] Hcol)
    as [_ [s' [Hnth [_ [_ [_ [_ [_ [Hnone _]]]]]]]]].
  rewrite Hnth. do 2 f_equal. apply Hnone. reflexivity.
Defined.

(** Columns that all parse are converted by pandas 2, the empty string to
    a missing value; a repeated name is left alone; and a pandas without
    [errors='ignore'] converts nothing at all. *)
Example coercion_examples :
  coerce_numeric_columns (doubles two_plots false)
    [("Cover", [CStr "1.5"; CStr ""; CNull; CNum 2]);
     ("Country", [CStr "1"; CStr "2"; CStr "3"; CStr "4"])]
  = [("Cover", [CNum (15 # 10); CNull; CNull; CNum 2]);
     ("Country", [CStr "1"; CStr "2"; CStr "3"; CStr "4"])]
  /\ coerce_numeric_columns (doubles two_plots false) repeated_name_frame
     = [("Cover", [CStr "1.5"]); ("Cover", [CStr "2.5"]); ("Loss", [CNum 3])]
  /\ coerce_numeric_columns (doubles_pandas_3 two_plots) repeated_name_frame
     = repeated_name_frame.
Proof. repeat split; vm_compute; reflexivity. Qed.

(** C4, the claim as stated fails: the route hands the requested unit to
    the statistics through the shared setting.  On a process whose setting
    is "ha", a successful run for "percent" writes the setting twice, and
    [get_stats] reads "percent" from it; and when the statistics fail, the
    restoring assignment is not reached and the setting stays at
    "percent". *)
Lemma run_writes_shared_unit :
  percent_or_ha fresh_world = "ha"
  /\ analyze_plots (doubles [example_plot "p1" "12.5"] false)
       (example_request GEE_ASSET PERCENT false) fresh_world
     = (inr {| status := "success";
               num_features := 1;
               response_output_unit := "percent";
               risk_calculated := false;
               results := [[("Plot_ID", CStr "p1");
                            ("Country", CStr "Brazil");
                            ("Cover", CNum (125 # 10));
                            ("Unit", CStr "percent")]];
               message := Some "Successfully analyzed 1 features" |},
        {| percent_or_ha := "ha";
           calls := [ev_ee_Initialize; ev_ee_FeatureCollection;
                     ev_size_getInfo; ev_set_percent_or_ha "percent";
                     ev_get_stats "percent"; ev_ee_to_pandas;
                     ev_set_percent_or_ha "ha"] |})
  /\ analyze_plots (doubles [example_plot "p1" "12.5"] true)
       (example_request GEE_ASSET PERCENT false) fresh_world
     = (inl (HTTPException 500
               "Failed to run analysis: Computation timed out."),
        {| percent_or_ha := "percent";
           calls := [ev_ee_Initialize; ev_ee_FeatureCollection;
                     ev_size_getInfo; ev_set_percent_or_ha "percent";
                     ev_get_stats "percent"] |}).
Proof. split; [|split]; vm_compute; reflexivity. Qed.

Lemma empty_collection_rejected_witness :
  ee_Initialize (doubles [] false) None = inr tt
  /\ input_collection (doubles [] false)
       (example_request GEOJSON HECTARES true) = inr []
  /\ size_getInfo (doubles [] false) [] = inr 0
  /\ analyze_plots (doubles [] false)
       (example_request GEOJSON HECTARES true) fresh_world
     = (inl (HTTPException 400 "Input contains no features"),
        {| percent_or_ha := "ha";
           calls := [ev_ee_Initialize; ev_ee_FeatureCollection;
                     ev_size_getInfo] |}).
Proof.
  split; [reflexivity|]. split; [reflexivity|]. split; [reflexivity|].
  exact (proj1 (empty_collection_rejected (doubles [] false)
                  (example_request GEOJSON HECTARES true) fresh_world []
                  eq_refl eq_refl eq_refl)).
Defined.

Lemma oversized_collection_not_analysed_witness :
  ee_Initialize (doubles many_plots false) None = inr tt
  /\ input_collection (doubles many_plots false)
       (example_request GEE_ASSET HECTARES true) = inr many_plots
  /\ size_getInfo (doubles many_plots false) many_plots = inr 501
  /\ WHISP_THRESHOLD_TO_DRIVE settings < 501
  /\ exists response,
       analyze_plots (doubles many_plots false)
         (example_request GEE_ASSET HECTARES true) fresh_world
       = (inr response,
          {| percent_or_ha := "ha";
             calls := [ev_ee_Initialize; ev_ee_FeatureCollection;
                       ev_size_getInfo] |})
       /\ status response = "too_large"
       /\ results response = []
       /\ risk_calculated response = false.
Proof.
  split; [reflexivity|]. split; [reflexivity|]. split; [reflexivity|].
  split; [reflexivity|].
  exact (proj1 (proj2
    (oversized_collection_not_analysed (doubles many_plots false)
       (example_request GEE_ASSET HECTARES true) fresh_world many_plots 501
       eq_refl eq_refl eq_refl eq_refl))).
Defined.

(** * Properties of the table builder *)

Section TableBuilder.
Import Engine.
Local Open Scope list_scope.
Local Open Scope Q_scope.

Variable rnd : Q -> Q.

Lemma build_cells_nth (requested_unit : RequestedUnit) (p : Plot)
  (registry : list DatasetDescriptor) (raws : list Cell) (j : nat) :
  nth_error (build_cells rnd requested_unit p registry raws) j
  = option_map (fun d => build_cell rnd requested_unit p d (nth j raws CNull))
      (nth_error registry j).
Proof.
  revert raws j. induction registry as [|d registry IH]; intros raws j.
  - now destruct j.
  - destruct j as [|j]; simpl.
    + now destruct raws.
    + rewrite IH. destruct raws; simpl; [now destruct j|reflexivity].
Qed.

Lemma build_rows_nth (requested_unit : RequestedUnit)
  (registry : list DatasetDescriptor) (plots : list Plot)
  (raw_matrix : list (list Cell)) (i : nat) :
  nth_error (build_rows rnd requested_unit registry plots raw_matrix) i
  = option_map
      (fun p => build_row rnd requested_unit registry p (nth i raw_matrix []))
      (nth_error plots i).
Proof.
  revert raw_matrix i. induction plots as [|p plots IH]; intros m i.
  - now destruct i.
  - destruct i as [|i]; simpl.
    + now destruct m.
    + rewrite IH. destruct m; simpl; [now destruct i|reflexivity].
Qed.

Lemma build_rows_plots (requested_unit : RequestedUnit)
  (registry : list DatasetDescriptor) (plots : list Plot)
  (raw_matrix : list (list Cell)) :
  map row_plot
    (map fst (build_rows rnd requested_unit registry plots raw_matrix))
  = plots.
Proof.
  revert raw_matrix. induction plots as [|p plots IH]; intros m; simpl.
  - reflexivity.
  - now rewrite IH.
Qed.

Lemma build_cell_value (requested_unit : RequestedUnit) (p : Plot)
  (d : DatasetDescriptor) (raw : Cell) :
  fst (build_cell rnd requested_unit p d raw)
  = (id d, cell_of (convert rnd raw (unit d) (area p) requested_unit)).
Proof.
  unfold build_cell.
  now destruct (convert rnd raw (unit d) (area p) requested_unit).
Qed.

Lemma build_cell_error (requested_unit : RequestedUnit) (p : Plot)
  (d : DatasetDescriptor) (raw : Cell) (err : ConversionError) :
  convert rnd raw (unit d) (area p) requested_unit = inl err ->
  In (plot_id p, id d, err) (snd (build_cell rnd requested_unit p d raw)).
Proof.
  unfold build_cell. intros ->. now left.
Qed.

(** Every cell of the table is the conversion of its own raw value, with
    its own layer's unit and its own plot's area, and every refused
    conversion is reported with its plot and column. *)
Lemma build_cell_at (registry : list DatasetDescriptor)
  (raw_matrix : list (list Cell)) (plots : list Plot)
  (requested_unit : RequestedUnit) (i j : nat) (p : Plot)
  (d : DatasetDescriptor) :
  nth_error plots i = Some p ->
  nth_error registry j = Some d ->
  exists row,
    nth_error (table_rows (build rnd registry raw_matrix plots requested_unit)) i
    = Some row
    /\ row_plot row = p
    /\ nth_error (row_cells row) j
       = Some (id d,
               cell_of (convert rnd (raw_at raw_matrix i j) (unit d)
                          (area p) requested_unit))
    /\ (forall err,
           convert rnd (raw_at raw_matrix i j) (unit d) (area p)
             requested_unit = inl err ->
           In (plot_id p, id d, err)
              (conversion_errors
                 (build rnd registry raw_matrix plots requested_unit))).
Proof.
  intros Hp Hd. unfold build. simpl.
  pose proof (build_rows_nth requested_unit registry plots raw_matrix i)
    as Hrow.
  rewrite Hp in Hrow. simpl in Hrow.
  pose proof (build_cells_nth requested_unit p registry
                (nth i raw_matrix []) j) as Hcell.
  rewrite Hd in Hcell. simpl in Hcell.
  eexists. split.
  { rewrite nth_error_map, Hrow. reflexivity. }
  split; [reflexivity|]. split.
  { simpl. rewrite nth_error_map, Hcell. simpl.
    now rewrite build_cell_value. }
  intros err Herr. apply in_concat.
  eexists. split.
  { apply in_map. eapply nth_error_In. exact Hrow. }
  simpl. apply in_concat. eexists. split.
  { apply in_map. eapply nth_error_In. exact Hcell. }
  now apply build_cell_error.
Qed.

Lemma convert_zero_area (raw : Cell) (u : Unit) (plot_area : Q)
  (r : RequestedUnit) :
  plot_area <= 0 -> needs_conversion u r = true ->
  convert rnd raw u plot_area r = inl zero_area_plot.
Proof.
  intros Ha Hc. apply Qle_bool_iff in Ha.
  destruct u, r; try discriminate Hc; simpl; unfold convert_with;
    now rewrite Ha.
Qed.

Lemma convert_not_needed (raw : Cell) (u : Unit) (plot_area : Q)
  (r : RequestedUnit) :
  needs_conversion u r = false -> convert rnd raw u plot_area r = inr raw.
Proof. destruct u, r; try discriminate; reflexivity. Qed.

(** C3. On a plot of area <= 0 every area<->percent conversion is
    refused with a ConversionError, whatever the raw value.  The table
    still has one row per plot; in the row of that plot the affected cell
    is null and reported, the cells of layers that need no conversion
    hold their raw values; and every cell of the table, of this plot or
    another, is the conversion of its own raw value alone. *)
Theorem zero_area_conversion_refused_and_contained
  (registry : list DatasetDescriptor) (raw_matrix : list (list Cell))
  (plots : list Plot) (requested_unit : RequestedUnit)
  (i j : nat) (p : Plot) (d : DatasetDescriptor)
  (Hp : nth_error plots i = Some p)
  (Hd : nth_error registry j = Some d)
  (Harea : area p <= 0)
  (Hconv : needs_conversion (unit d) requested_unit = true) :
  (forall raw,
      convert rnd raw (unit d) (area p) requested_unit = inl zero_area_plot)
  /\ map row_plot
       (table_rows (build rnd registry raw_matrix plots requested_unit))
     = plots
  /\ In (plot_id p, id d, zero_area_plot)
       (conversion_errors
          (build rnd registry raw_matrix plots requested_unit))
  /\ (exists row,
        nth_error
          (table_rows (build rnd registry raw_matrix plots requested_unit)) i
        = Some row
        /\ row_plot row = p
        /\ nth_error (row_cells row) j = Some (id d, CNull)
        /\ forall j' d',
             nth_error registry j' = Some d' ->
             needs_conversion (unit d') requested_unit = false ->
             nth_error (row_cells row) j'
             = Some (id d', raw_at raw_matrix i j'))
  /\ (forall i' j' p' d',
        nth_error plots i' = Some p' ->
        nth_error registry j' = Some d' ->
        exists row',
          nth_error
            (table_rows (build rnd registry raw_matrix plots requested_unit))
            i'
          = Some row'
          /\ row_plot row' = p'
          /\ nth_error (row_cells row') j'
             = Some (id d',
                     cell_of (convert rnd (raw_at raw_matrix i' j')
                                (unit d') (area p') requested_unit))).
Proof.
  pose proof (fun raw =>
                convert_zero_area raw (unit d) (area p) requested_unit
                  Harea Hconv) as Hrefused.
  split; [exact Hrefused|]. split.
  { unfold build. simpl. apply build_rows_plots. }
  destruct (build_cell_at registry raw_matrix plots requested_unit i j p d
              Hp Hd) as [row [Hrow [Hplot [Hcell Herr]]]].
  split; [apply Herr, Hrefused|]. split.
  - exists row. split; [exact Hrow|]. split; [exact Hplot|]. split.
    + rewrite Hcell, Hrefused. reflexivity.
    + intros j' d' Hd' Hno.
      destruct (build_cell_at registry raw_matrix plots requested_unit
                  i j' p d' Hp Hd') as [row2 [Hrow2 [_ [Hcell2 _]]]].
      rewrite Hrow in Hrow2. injection Hrow2 as <-.
      rewrite Hcell2, convert_not_needed by assumption. reflexivity.
  - intros i' j' p' d' Hp' Hd'.
    destruct (build_cell_at registry raw_matrix plots requested_unit
                i' j' p' d' Hp' Hd') as [row' [Hrow' [Hplot' [Hcell' _]]]].
    exists row'. auto.
Qed.
End TableBuilder.

(** * The unit round trip *)

Section RoundTrip.
Import Engine.
Local Open Scope Q_scope.

Lemma pow2_pos (e : Z) : 0 < pow2 e.
Proof. apply Qpower_0_lt. reflexivity. Qed.

Lemma pow2_add (a b : Z) : pow2 (a + b) == pow2 a * pow2 b.
Proof. apply Qpower_plus. discriminate. Qed.

Lemma inject_Z_pow2 (k : Z) : (0 <= k)%Z -> inject_Z (2 ^ k) == pow2 k.
Proof. intros Hk. unfold pow2. now rewrite Zpower_Qpower. Qed.

Lemma round_half_even_close (y : Q) :
  Qabs (inject_Z (round_half_even y) - y) <= 1 # 2.
Proof.
  unfold round_half_even.
  pose proof (Qfloor_le y) as Hlo. pose proof (Qlt_floor y) as Hhi.
  rewrite inject_Z_plus in Hhi.
  set (f := Qfloor y) in *.
  assert (Hup : Qabs (inject_Z (f + 1) - y) <= 1 # 2
                <-> 1 # 2 <= y - inject_Z f).
  { rewrite inject_Z_plus. split; intros H.
    - apply Qabs_Qle_condition in H. destruct H as [H1 H2].
      change (inject_Z 1) with 1 in *. lra.
    - apply Qabs_Qle_condition. change (inject_Z 1) with 1 in *. split; lra. }
  assert (Hdn : Qabs (inject_Z f - y) <= 1 # 2 <-> y - inject_Z f <= 1 # 2).
  { split; intros H.
    - apply Qabs_Qle_condition in H. lra.
    - apply Qabs_Qle_condition. split; lra. }
  destruct (Qcompare_spec (y - inject_Z f) (1 # 2)) as [H|H|H].
  - destruct (Z.even f); [apply Hdn|apply Hup]; lra.
  - apply Hdn; lra.
  - apply Hup; lra.
Qed.

(** From the smallest normal on, the quantum at [x] is at most 2^-52 of
    the magnitude of [x]. *)
Lemma binary64_exponent_bound (x : Q) :
  ~ x == 0 -> pow2 (-1022) <= Qabs x ->
  pow2 52 * pow2 (binary64_exponent x) <= Qabs x.
Proof.
  intros Hx Hmin. unfold binary64_exponent.
  set (e0 := (Z.log2 (Z.abs (Qnum x)) - Z.log2 (Z.pos (Qden x)) - 53)%Z).
  assert (H0 : pow2 52 * pow2 e0 <= Qabs x).
  { rewrite <- pow2_add.
    replace (52 + e0)%Z
      with (Z.log2 (Z.abs (Qnum x)) + - Z.succ (Z.log2 (Z.pos (Qden x))))%Z
      by (unfold e0; lia).
    rewrite pow2_add.
    assert (Hn : (0 < Z.abs (Qnum x))%Z).
    { destruct x as [n d]. unfold Qeq in Hx. simpl in *. lia. }
    destruct (Z.log2_spec _ Hn) as [Hn1 _].
    destruct (Z.log2_spec (Z.pos (Qden x)) eq_refl) as [_ Hd2].
    pose proof (Z.log2_nonneg (Z.abs (Qnum x))) as Hl1.
    pose proof (Z.log2_nonneg (Z.pos (Qden x))) as Hl2.
    rewrite Zle_Qle, inject_Z_pow2 in Hn1 by assumption.
    apply Z.lt_le_incl in Hd2.
    rewrite Zle_Qle, inject_Z_pow2 in Hd2 by lia.
    set (a := pow2 (Z.log2 (Z.abs (Qnum x)))) in *.
    assert (Hinv : pow2 (- Z.succ (Z.log2 (Z.pos (Qden x))))
                   == / pow2 (Z.succ (Z.log2 (Z.pos (Qden x))))).
    { unfold pow2. apply Qpower_opp. }
    rewrite Hinv.
    set (b := pow2 (Z.succ (Z.log2 (Z.pos (Qden x))))) in *.
    assert (Hb : 0 < b) by apply pow2_pos.
    assert (Habs : Qabs x
                   == inject_Z (Z.abs (Qnum x)) / inject_Z (Z.pos (Qden x))).
    { destruct x as [n d]. simpl. unfold Qabs. simpl.
      rewrite (Qmake_Qdiv (Z.abs n) d). reflexivity. }
    rewrite Habs.
    assert (Hd : 0 < inject_Z (Z.pos (Qden x))) by reflexivity.
    apply Qle_shift_div_l; [exact Hd|].
    apply Qle_trans with (a * / b * b).
    - apply Qmult_le_compat_nonneg.
      + split.
        * apply Qmult_le_0_compat; [apply Qlt_le_weak, pow2_pos|].
          apply Qlt_le_weak, Qinv_lt_0_compat, Hb.
        * apply Qle_refl.
      + split; [apply Qlt_le_weak; exact Hd|exact Hd2].
    - assert (Heq : a * / b * b == a) by (field; lra).
      rewrite Heq. exact Hn1. }
  apply Z.max_case_strong; intros Hmax.
  - destruct (Qle_bool (pow2 53) (Qabs x / pow2 e0)) eqn:Hb; [|exact H0].
    apply Qle_bool_iff in Hb.
    rewrite pow2_add.
    assert (Hp : 0 < pow2 e0) by apply pow2_pos.
    assert (Hc : pow2 53 * pow2 e0 <= Qabs x).
    { apply Qle_trans with (Qabs x / pow2 e0 * pow2 e0).
      - apply Qmult_le_compat_r; [exact Hb|lra].
      - assert (Heq : Qabs x / pow2 e0 * pow2 e0 == Qabs x) by (field; lra).
        rewrite Heq. apply Qle_refl. }
    assert (H1 : pow2 52 * (pow2 e0 * pow2 1) == pow2 53 * pow2 e0).
    { change (pow2 52) with (inject_Z (2 ^ 52)).
      unfold pow2 at 2 3. simpl. ring_simplify. reflexivity. }
    rewrite H1. exact Hc.
  - rewrite <- pow2_add. exact Hmin.
Qed.

Lemma binary64_round_nonzero (x : Q) :
  ~ x == 0 ->
  binary64_round x
  == inject_Z (round_half_even (x / pow2 (binary64_exponent x)))
     * pow2 (binary64_exponent x).
Proof.
  intros Hx. unfold binary64_round.
  destruct (Qnum x) eqn:Hn.
  - exfalso. apply Hx. destruct x as [n d]. simpl in Hn. subst. reflexivity.
  - apply Qred_correct.
  - apply Qred_correct.
Qed.

Lemma binary64_round_zero (x : Q) : x == 0 -> binary64_round x = 0.
Proof.
  intros Hx. unfold binary64_round.
  destruct x as [n d]. unfold Qeq in Hx. simpl in *.
  rewrite Z.mul_1_r in Hx. now subst.
Qed.

(** From the smallest normal on, rounding is within the unit roundoff
    of the exact result. *)
Lemma binary64_round_close (x : Q) :
  pow2 (-1022) <= Qabs x ->
  Qabs (binary64_round x - x) <= unit_roundoff * Qabs x.
Proof.
  intros Hmin.
  assert (Hx : ~ x == 0).
  { intros H. rewrite (Qabs_wd _ _ H) in Hmin.
    apply Qle_not_lt in Hmin. apply Hmin. apply pow2_pos. }
  pose proof (binary64_exponent_bound x Hx Hmin) as Hq.
  rewrite (Qabs_wd _ _ (Qplus_comp _ _ (binary64_round_nonzero x Hx)
                          _ _ (Qeq_refl (- x)))).
  set (q := pow2 (binary64_exponent x)) in *.
  assert (Hqpos : 0 < q) by apply pow2_pos.
  pose proof (round_half_even_close (x / q)) as Hm.
  set (m := inject_Z (round_half_even (x / q))) in *.
  assert (Heq : m * q + - x == (m - x / q) * q) by (field; lra).
  rewrite (Qabs_wd _ _ Heq), Qabs_Qmult.
  rewrite (Qabs_pos q) by lra.
  assert (H1 : Qabs (m - x / q) * q <= (1 # 2) * q)
    by (apply Qmult_le_compat_r; [exact Hm|lra]).
  assert (H2 : unit_roundoff * (pow2 52 * q) <= unit_roundoff * Qabs x)
    by (apply Qmult_le_l; [reflexivity|exact Hq]).
  assert (H3 : unit_roundoff * (pow2 52 * q) == (1 # 2) * q).
  { assert (Hc : unit_roundoff * pow2 52 == 1 # 2) by reflexivity.
    rewrite Qmult_assoc, Hc. reflexivity. }
  rewrite H3 in H2. lra.
Qed.

Lemma rounded_product_bound (u e A C P D R G : Q) :
  0 <= u -> 0 <= e -> 0 <= A -> 0 <= C ->
  D <= e * A -> P <= A + D -> R <= u * (P * C) -> G <= R + D * C ->
  G <= (e + u + e * u) * (A * C).
Proof.
  intros Hu He HA HC HD HP HR HG.
  assert (H1 : 0 <= u * C) by (apply Qmult_le_0_compat; assumption).
  assert (H2 : 0 <= (u * C) * (A + D - P))
    by (apply Qmult_le_0_compat; lra).
  assert (H3 : 0 <= (u * C) * (e * A - D))
    by (apply Qmult_le_0_compat; lra).
  assert (H4 : 0 <= C * (e * A - D)) by (apply Qmult_le_0_compat; lra).
  nra.
Qed.

(** One rounded multiplication: a relative error [e] on the operand
    grows to [e + u + e * u] on the result. *)
Lemma rounded_product_close (u e p t c r : Q) :
  0 <= u -> 0 <= e ->
  Qabs (p - t) <= e * Qabs t ->
  Qabs (r - p * c) <= u * Qabs (p * c) ->
  Qabs (r - t * c) <= grow u e * Qabs (t * c).
Proof.
  intros Hu He Hp H1. unfold grow.
  rewrite Qabs_Qmult in H1.
  pose proof (Qabs_triangle t (p - t)) as H2.
  assert (Heq : t + (p - t) == p) by ring. rewrite Heq in H2. clear Heq.
  pose proof (Qabs_triangle (r - p * c) (p * c - t * c)) as H3.
  assert (Heq : r - p * c + (p * c - t * c) == r - t * c) by ring.
  rewrite Heq in H3. clear Heq.
  assert (H4 : Qabs (p * c - t * c) == Qabs (p - t) * Qabs c).
  { rewrite <- Qabs_Qmult. apply Qabs_wd. ring. }
  rewrite H4 in H3. rewrite Qabs_Qmult.
  apply (rounded_product_bound u e (Qabs t) (Qabs c) (Qabs p)
           (Qabs (p - t)) (Qabs (r - p * c)) (Qabs (r - t * c)));
    auto using Qabs_nonneg.
Qed.

Lemma binary64_range_facts :
  0 < pow2 (-1022)
  /\ 2 * pow2 (-1022) <= safe_min
  /\ 100 * safe_max <= pow2 1022
  /\ 2 * pow2 1022 < pow2 1024.
Proof.
  repeat split; vm_compute; reflexivity || (intros H; discriminate H).
Qed.

Lemma error_growth_facts :
  let u := unit_roundoff in
  let e1 := grow u 0 in
  let e2 := grow u e1 in
  let e3 := grow u e2 in
  let e4 := grow u e3 in
  (0 <= e1 /\ e1 <= 1 # 2) /\ (0 <= e2 /\ e2 <= 1 # 2)
  /\ (0 <= e3 /\ e3 <= 1 # 2) /\ e4 <= tolerance.
Proof. vm_compute. repeat split; intros H; discriminate H. Qed.

(** One operation of the round trip, on an operand [p] that stands for
    [t] with relative error [e]: when the exact result [t * c] is well
    inside the normal range, the operation neither underflows nor
    overflows and its result stands for [t * c] with the grown error. *)
Lemma binary64_step (e p t c : Q) :
  0 <= e -> e <= 1 # 2 ->
  Qabs (p - t) <= e * Qabs t ->
  2 * pow2 (-1022) <= Qabs (t * c) ->
  Qabs (t * c) <= pow2 1022 ->
  Qabs (binary64_round (p * c) - t * c)
  <= grow unit_roundoff e * Qabs (t * c)
  /\ binary64 (p * c) = Finite (binary64_round (p * c)).
Proof.
  intros He0 He1 Hp Hlo Hhi.
  destruct binary64_range_facts as [Fmn [_ [_ Fbig]]].
  assert (Hd : Qabs (p * c - t * c) <= e * Qabs (t * c)).
  { assert (Heq : p * c - t * c == (p - t) * c) by ring.
    rewrite (Qabs_wd _ _ Heq), !Qabs_Qmult.
    rewrite Qmult_assoc.
    apply Qmult_le_compat_r; [exact Hp|apply Qabs_nonneg]. }
  pose proof (Qabs_triangle (p * c) (t * c - p * c)) as Htri.
  assert (Heq : p * c + (t * c - p * c) == t * c) by ring.
  rewrite (Qabs_wd _ _ Heq) in Htri. clear Heq.
  assert (Heq : t * c - p * c == - (p * c - t * c)) by ring.
  rewrite (Qabs_wd _ _ Heq), Qabs_opp in Htri. clear Heq.
  pose proof (Qabs_nonneg (t * c)) as Htc.
  assert (Hhalf : e * Qabs (t * c) <= (1 # 2) * Qabs (t * c))
    by (apply Qmult_le_compat_r; assumption).
  assert (Hmin : pow2 (-1022) <= Qabs (p * c)) by lra.
  pose proof (binary64_round_close (p * c) Hmin) as Hclose.
  assert (Hu : 0 <= unit_roundoff) by discriminate.
  pose proof (rounded_product_close unit_roundoff e p t c
                (binary64_round (p * c)) Hu He0 Hp Hclose) as Herr.
  split; [exact Herr|].
  unfold binary64.
  destruct (Qle_bool (pow2 1024) (Qabs (binary64_round (p * c)))) eqn:Hb;
    [|reflexivity].
  exfalso. apply Qle_bool_iff in Hb.
  pose proof (Qabs_triangle (t * c) (binary64_round (p * c) - t * c))
    as Htri2.
  assert (Heq : t * c + (binary64_round (p * c) - t * c)
                == binary64_round (p * c)) by ring.
  rewrite (Qabs_wd _ _ Heq) in Htri2. clear Heq.
  assert (Hg : grow unit_roundoff e * Qabs (t * c) <= 1 * Qabs (t * c)).
  { apply Qmult_le_compat_r; [|exact Htc]. unfold grow.
    assert (Hu2 : unit_roundoff <= 1 # 4) by discriminate.
    assert (Heu : e * unit_roundoff <= (1 # 2) * (1 # 4)).
    { apply Qmult_le_compat_nonneg; split; assumption. }
    lra. }
  lra.
Qed.

(** C6, as amended.  In binary64 arithmetic, for a plot of positive area
    and a value that is zero, or such that the value and its quotient by
    the area have a magnitude between 1e-300 and 1e300, none of the four
    operations of the round trip overflows or underflows, and the value
    converted from area to percent of plot and back differs from the
    original by at most 1e-9 of its magnitude.  These two conversions are
    what [convert] applies to a number, and a categorical or boolean layer
    is handed back as it came, for every requested unit and every area. *)
Theorem area_percent_round_trip_in_range (v a : Q)
  (Ha : 0 < a)
  (Hrange : v == 0 \/ (in_safe_range v /\ in_safe_range (v / a))) :
  (let p1 := fl_div binary64_round v a in
   let p2 := fl_mul binary64_round p1 100 in
   let p3 := fl_mul binary64_round p2 a in
   let p4 := fl_div binary64_round p3 100 in
   area_to_percent binary64_round v a = p2
   /\ percent_to_area binary64_round p2 a = p4
   /\ binary64 (v / a) = Finite p1
   /\ binary64 (p1 * 100) = Finite p2
   /\ binary64 (p2 * a) = Finite p3
   /\ binary64 (p3 / 100) = Finite p4)
  /\ Qabs (percent_to_area binary64_round
             (area_to_percent binary64_round v a) a - v)
     <= tolerance * Qabs v
  /\ convert binary64_round (CNum v) area_unit a req_percent_of_plot
     = inr (CNum (area_to_percent binary64_round v a))
  /\ convert binary64_round (CNum (area_to_percent binary64_round v a))
       percent_of_plot a req_area
     = inr (CNum (percent_to_area binary64_round
                    (area_to_percent binary64_round v a) a))
  /\ (forall rnd raw plot_area requested_unit,
         convert rnd raw categorical plot_area requested_unit = inr raw
         /\ convert rnd raw boolean plot_area requested_unit = inr raw).
Proof.
  assert (Hpos : Qle_bool a 0 = false).
  { destruct (Qle_bool a 0) eqn:Hb; [|reflexivity].
    apply Qle_bool_iff in Hb. lra. }
  assert (Hconv :
    convert binary64_round (CNum v) area_unit a req_percent_of_plot
    = inr (CNum (area_to_percent binary64_round v a))
    /\ convert binary64_round (CNum (area_to_percent binary64_round v a))
         percent_of_plot a req_area
       = inr (CNum (percent_to_area binary64_round
                      (area_to_percent binary64_round v a) a))
    /\ (forall rnd raw plot_area requested_unit,
           convert rnd raw categorical plot_area requested_unit = inr raw
           /\ convert rnd raw boolean plot_area requested_unit = inr raw)).
  { split; [|split].
    - simpl. unfold convert_with. now rewrite Hpos.
    - simpl. unfold convert_with. now rewrite Hpos.
    - intros rnd raw plot_area requested_unit.
      split; destruct requested_unit; reflexivity. }
  cut ((binary64 (v / a) = Finite (binary64_round (v / a))
        /\ binary64 (binary64_round (v / a) * 100)
           = Finite (binary64_round (binary64_round (v / a) * 100))
        /\ binary64 (binary64_round (binary64_round (v / a) * 100) * a)
           = Finite (binary64_round
                       (binary64_round (binary64_round (v / a) * 100) * a))
        /\ binary64
             (binary64_round
                (binary64_round (binary64_round (v / a) * 100) * a) / 100)
           = Finite (binary64_round
                       (binary64_round
                          (binary64_round (binary64_round (v / a) * 100) * a)
                        / 100)))
       /\ Qabs (binary64_round
                  (binary64_round
                     (binary64_round (binary64_round (v / a) * 100) * a)
                   / 100) - v)
          <= tolerance * Qabs v).
  { intros [[B1 [B2 [B3 B4]]] Herr].
    unfold percent_to_area, area_to_percent, fl_div, fl_mul in *.
    cbv zeta.
    split; [repeat split; assumption|]. split; [exact Herr|exact Hconv]. }
  clear Hconv Hpos.
  destruct Hrange as [Hz|[[Hv1 Hv2] [Hq1 Hq2]]].
  - assert (H1 : binary64_round (v / a) = 0).
    { apply binary64_round_zero. rewrite Hz. unfold Qdiv. ring. }
    rewrite H1.
    assert (H2 : binary64_round (0 * 100) = 0) by reflexivity.
    rewrite H2.
    assert (H3 : binary64_round (0 * a) = 0)
      by (apply binary64_round_zero; ring).
    rewrite H3.
    assert (H4 : binary64_round (0 / 100) = 0) by reflexivity.
    rewrite H4.
    assert (Hb : forall x, binary64_round x = 0 -> binary64 x = Finite 0).
    { intros x Hx. unfold binary64. rewrite Hx. reflexivity. }
    split; [repeat split; now apply Hb|].
    assert (Heq : 0 - v == 0) by (rewrite Hz; ring).
    rewrite (Qabs_wd _ _ Heq), (Qabs_wd _ _ Hz). discriminate.
  - destruct binary64_range_facts as [Fmn [Flo [Fhi Fbig]]].
    destruct error_growth_facts as [[E1 E1'] [[E2 E2'] [[E3 E3'] E4]]].
    cbv zeta in *.
    unfold Qdiv in *.
    pose proof (Qabs_nonneg v) as Hv0.
    assert (Hsm : 0 < safe_min) by reflexivity.
    assert (T3 : Qabs (v * / a * 100 * a) == 100 * Qabs v).
    { assert (Heq : v * / a * 100 * a == 100 * v) by (field; lra).
      rewrite (Qabs_wd _ _ Heq), Qabs_Qmult. reflexivity. }
    assert (T4 : v * / a * 100 * a * / 100 == v) by (field; lra).
    assert (T2 : Qabs (v * / a * 100) == 100 * Qabs (v * / a)).
    { rewrite Qabs_Qmult. change (Qabs 100) with 100. ring. }
    assert (H0 : Qabs (v - v) <= 0 * Qabs v).
    { assert (Hzz : v - v == 0) by ring.
      rewrite (Qabs_wd _ _ Hzz). simpl. lra. }
    destruct (binary64_step 0 v v (/ a)) as [A1 B1];
      [lra|discriminate|exact H0|lra|lra|].
    destruct (binary64_step _ _ _ 100 E1 E1' A1) as [A2 B2];
      [rewrite T2; lra|rewrite T2; lra|].
    destruct (binary64_step _ _ _ a E2 E2' A2) as [A3 B3];
      [rewrite T3; lra|rewrite T3; lra|].
    destruct (binary64_step _ _ _ (/ 100) E3 E3' A3) as [A4 B4];
      [rewrite (Qabs_wd _ _ T4); lra|rewrite (Qabs_wd _ _ T4); lra|].
    split; [repeat split; assumption|].
    rewrite T4 in A4.
    eapply Qle_trans; [exact A4|].
    apply Qmult_le_compat_r; [exact E4|exact Hv0].
Qed.
End RoundTrip.

(** * Properties of the classifier *)

Section ClassifierProperties.
Import Engine.
Local Open Scope list_scope.
Local Open Scope Q_scope.

Variable rule_table : IndicatorStates -> RiskLevel.
Variable registry : list DatasetDescriptor.
Variable thresholds : Thresholds.




(** Reordering the plots reorders the results with them. *)
Lemma classify_rows_permutation (rows rows' : list Row) :
  Permutation rows rows' ->
  forall out,
    classify_rows rule_table registry thresholds rows = inr out ->
    exists out',
      classify_rows rule_table registry thresholds rows' = inr out'
      /\ Permutation (combine rows out) (combine rows' out').
Proof.
  induction 1 as [|x l l' Hperm IH|x y l|l l' l'' H1 IH1 H2 IH2];
    intros out; simpl.
  - intros [= <-]. exists []. split; [reflexivity|constructor].
  - destruct (classify_row rule_table registry thresholds x) as [e|r];
      [discriminate|].
    destruct (classify_rows rule_table registry thresholds l) as [e|rs];
      [discriminate|].
    intros [= <-]. destruct (IH rs eq_refl) as [rs' [-> Hp]].
    exists (r :: rs'). split; [reflexivity|]. simpl. now constructor.
  - destruct (classify_row rule_table registry thresholds x) as [e|rx];
      [destruct (classify_row rule_table registry thresholds y);
       discriminate|].
    destruct (classify_row rule_table registry thresholds y) as [e|ry];
      [discriminate|].
    destruct (classify_rows rule_table registry thresholds l) as [e|rs];
      [discriminate|].
    intros [= <-]. exists (rx :: ry :: rs). split; [reflexivity|].
    simpl. apply perm_swap.
  - intros Hout. destruct (IH1 out Hout) as [out' [Hout' Hp1]].
    destruct (IH2 out' Hout') as [out'' [Hout'' Hp2]].
    exists out''. split; [exact Hout''|].
    now apply Permutation_trans with (combine l' out').
Qed.




End ClassifierProperties.

Section ClassifierStates.
Import Engine.
Local Open Scope list_scope.
Local Open Scope Q_scope.

Variable rule_table : IndicatorStates -> RiskLevel.
Variable registry : list DatasetDescriptor.

End ClassifierStates.

(** * The same request, served again *)

(** Two runs that find the same unit setting give the same result. *)
Lemma analyze_plots_same_setting (E : Collaborators)
  (request : AnalyzeRequest) (w1 w2 : World) :
  percent_or_ha w1 = percent_or_ha w2 ->
  fst (analyze_plots E request w1) = fst (analyze_plots E request w2).
Proof.
  intros Hsame. unfold_route. rewrite Hsame.
  repeat route_step; simpl in *; congruence.
Qed.


(** * The scenarios of the specification *)

Section ScenarioRuns.
Import Engine Scenarios.
Local Open Scope Q_scope.

(** "expect plot 1 fully converted, plot 2 raises ConversionError on the
    tree_cover column but still returns a row with other columns
    populated" *)
Example zero_area_scenario :
  build exact registry raw_matrix [plot_1; plot_2] req_percent_of_plot
  = mkTable
      [mkRow plot_1 [("tree_cover", CNum 50); ("commodity", CNum 20);
                     ("water", CNum 1)];
       mkRow plot_2 [("tree_cover", CNull); ("commodity", CNum 40);
                     ("water", CNum 0)]]
      [("plot 2", "tree_cover", zero_area_plot)].
Proof. vm_compute. reflexivity. Qed.

(** "thresholds = 10.0, contributing statistics = [10.0, 9.9, null, 5.0];
    expect [exceeded, not_exceeded, unknown, not_exceeded]" *)
Example threshold_scenario :
  classify example_rule indicator_registry indicator_table all_ten
  = inr [(mkStates exceeded not_exceeded unknown not_exceeded,
          MORE_INFO_NEEDED)].
Proof. vm_compute. reflexivity. Qed.
End ScenarioRuns.

(** The mixed scenario: thresholds 10, 20, 30 and 2 on the statistics
    10, 15, null and 3 give exceeded, not_exceeded, unknown, exceeded. *)
Example mixed_scenario :
  Engine.classify Scenarios.example_rule Scenarios.mixed_registry
    Scenarios.mixed_table (Engine.mkThresholds 10 20 30 2)
  = inr [(Engine.mkStates Engine.exceeded Engine.not_exceeded Engine.unknown
            Engine.exceeded,
          MORE_INFO_NEEDED)].
Proof. vm_compute. reflexivity. Qed.


Lemma zero_area_conversion_refused_and_contained_witness :
  nth_error [Scenarios.plot_1; Scenarios.plot_2] 1 = Some Scenarios.plot_2
  /\ nth_error Scenarios.registry 0
     = Some (Engine.mkDataset "tree_cover" Engine.area_unit
               (Some Engine.ind_1))
  /\ (Engine.area Scenarios.plot_2 <= 0)%Q
  /\ needs_conversion Engine.area_unit Engine.req_percent_of_plot = true
  /\ In ("plot 2", "tree_cover", Engine.zero_area_plot)
       (Engine.conversion_errors
          (Engine.build Scenarios.exact Scenarios.registry
             Scenarios.raw_matrix [Scenarios.plot_1; Scenarios.plot_2]
             Engine.req_percent_of_plot)).
Proof.
  split; [reflexivity|]. split; [reflexivity|].
  split; [discriminate|]. split; [reflexivity|].
  assert (Harea : (Engine.area Scenarios.plot_2 <= 0)%Q) by discriminate.
  exact (proj1 (proj2 (proj2
    (zero_area_conversion_refused_and_contained Scenarios.exact
       Scenarios.registry Scenarios.raw_matrix
       [Scenarios.plot_1; Scenarios.plot_2] Engine.req_percent_of_plot
       1%nat 0%nat Scenarios.plot_2
       (Engine.mkDataset "tree_cover" Engine.area_unit (Some Engine.ind_1))
       eq_refl eq_refl Harea eq_refl)))).
Defined.

Lemma area_percent_round_trip_in_range_witness :
  (0 < 12)%Q
  /\ in_safe_range (15 # 4)
  /\ in_safe_range ((15 # 4) / 12)
  /\ (Qabs (Engine.percent_to_area binary64_round
              (Engine.area_to_percent binary64_round (15 # 4) 12) 12
            - (15 # 4))
      <= tolerance * Qabs (15 # 4))%Q.
Proof.
  assert (Hv : in_safe_range (15 # 4))
    by (split; vm_compute; intros H; discriminate H).
  assert (Hq : in_safe_range ((15 # 4) / 12))
    by (split; vm_compute; intros H; discriminate H).
  split; [reflexivity|]. split; [exact Hv|]. split; [exact Hq|].
  exact (proj1 (proj2 (area_percent_round_trip_in_range (15 # 4) 12
                         eq_refl (or_intror (conj Hv Hq))))).
Defined.

Section MachineFloats.
Import PrimFloat.

(** [binary64] against the floats of the machine: 0.1, a product of
    inexact operands, a quotient that underflows to zero, a subnormal
    quotient, the quotient 1e308 / 0.001 that overflows, and a round trip
    area to percent and back. *)
Example binary64_is_the_machine_format :
  float_value (1 / 10)%float = binary64 (1 / 10)
  /\ float_value (- (1 / 10) * (3 / 10))%float
     = binary64 (- binary64_round (1 / 10) * binary64_round (3 / 10))
  /\ float_value (0x1p-1074 / 3)%float = binary64 (smallest_subnormal / 3)
  /\ float_value (0x1p-1060 / 3)%float = binary64 (pow2 (-1060) / 3)
  /\ float_value (0x1.1ccf385ebc8ap+1023 / 0x1.0624dd2f1a9fcp-10)%float
     = binary64 (binary64_round (inject_Z (10 ^ 308))
                 / binary64_round (1 # 1000))
  /\ float_value (7 / 10 / 12 * 100 * 12 / 100)%float
     = Finite (Engine.percent_to_area binary64_round
                 (Engine.area_to_percent binary64_round
                    (binary64_round (7 / 10)) 12) 12).
Proof. repeat split; vm_compute; reflexivity. Qed.

(** C6, the claim as stated fails at both ends of the binary64 range.
    The smallest positive binary64 value, as the statistic of a plot of
    area 3, is lost: its quotient by 3 rounds to zero and the round trip
    gives 0.  And the statistic 1e308 of a plot of area 0.001 overflows in
    the division: the quotient is an infinity.  The floats of the machine
    give the same. *)
Lemma round_trip_fails_at_the_extremes :
  (binary64 smallest_subnormal = Finite (Qred smallest_subnormal)
   /\ binary64 3 = Finite 3
   /\ (0 < 3)%Q
   /\ Engine.percent_to_area binary64_round
        (Engine.area_to_percent binary64_round smallest_subnormal 3) 3
      = 0%Q
   /\ ~ (Qabs (Engine.percent_to_area binary64_round
                 (Engine.area_to_percent binary64_round smallest_subnormal 3)
                 3
               - smallest_subnormal)
         <= tolerance * Qabs smallest_subnormal)%Q
   /\ float_value (0x1p-1074 / 3 * 100 * 3 / 100)%float = Finite 0)
  /\ ((0 < binary64_round (1 # 1000))%Q
      /\ binary64 (binary64_round (inject_Z (10 ^ 308))
                   / binary64_round (1 # 1000))
         = PosInf
      /\ float_value (0x1.1ccf385ebc8ap+1023 / 0x1.0624dd2f1a9fcp-10)%float
         = PosInf).
Proof.
  split; [split; [|split; [|split; [|split; [|split]]]]|split; [|split]].
  - vm_compute. reflexivity.
  - vm_compute. reflexivity.
  - reflexivity.
  - vm_compute. reflexivity.
  - vm_compute. intros H. apply H. reflexivity.
  - vm_compute. reflexivity.
  - vm_compute. reflexivity.
  - vm_compute. reflexivity.
  - vm_compute. reflexivity.
Qed.
End MachineFloats.


(** * Further properties of the route: every way a run can end *)

Section RunOutcomes.
Variable E : Collaborators.

(** X1. When Earth Engine does not initialise, the route answers 500
    "Failed to initialize Google Earth Engine. Check authentication."
    whatever the cause, and has called nothing else. *)
Theorem initialisation_failure_is_500
  (request : AnalyzeRequest) (w : World) (msg : string)
  (Hinit : ee_Initialize E None = inl msg) :
  analyze_plots E request w
  = (inl (HTTPException 500
            "Failed to initialize Google Earth Engine. Check authentication."),
     {| percent_or_ha := percent_or_ha w;
        calls := calls w ++ [ev_ee_Initialize] |}).
Proof.
  unfold_route. rewrite Hinit. reflexivity.
Qed.

(** X2. The health endpoint never raises: it reports "healthy" exactly
    when Earth Engine initialised and "degraded" otherwise, with the API
    version, after that one call and without touching the unit setting. *)
Theorem health_check_reports_initialisation (w : World) :
  exists gee_status : bool,
    health_check E w
    = (inr {| health_status := if gee_status then "healthy" else "degraded";
              version := "1.0.0";
              gee_initialized := gee_status |},
       {| percent_or_ha := percent_or_ha w;
          calls := calls w ++ [ev_ee_Initialize] |})
    /\ (gee_status = true <-> ee_Initialize E None = inr tt).
Proof.
  unfold health_check, initialize_gee, try_except, bind, ret, call, log.
  simpl.
  destruct (ee_Initialize E None) as [msg|[]] eqn:Hinit.
  - exists false. split; [reflexivity|]. split; discriminate.
  - exists true. split; [reflexivity|]. split; reflexivity.
Qed.

(** X3. When the input does not load, the route answers 400 after the
    load and nothing else: "Failed to load GEE asset: ..." for an asset
    path, and for GeoJSON the message with its prefix twice, once from
    [geojson_to_ee] and once from the route. *)
Theorem load_failure_is_400
  (request : AnalyzeRequest) (w : World) (msg : string)
  (Hinit : ee_Initialize E None = inr tt)
  (Hload : input_collection E request = inl msg) :
  analyze_plots E request w
  = (inl (HTTPException 400 (load_failure_detail (input_type request) msg)),
     {| percent_or_ha := percent_or_ha w;
        calls := calls w ++ [ev_ee_Initialize; ev_ee_FeatureCollection] |}).
Proof.
  unfold_route. rewrite Hinit. simpl.
  destruct (input_type request); simpl; rewrite Hload; simpl;
    rewrite <- !app_assoc; reflexivity.
Qed.

(** X4. When the size of the collection cannot be fetched, the route
    answers 400 "Failed to get feature count: ..." and goes no further. *)
Theorem size_failure_is_400
  (request : AnalyzeRequest) (w : World) (fc : FeatureCollection E)
  (msg : string)
  (Hinit : ee_Initialize E None = inr tt)
  (Hload : input_collection E request = inr fc)
  (Hsize : size_getInfo E fc = inl msg) :
  analyze_plots E request w
  = (inl (HTTPException 400 ("Failed to get feature count: " ++ msg)),
     {| percent_or_ha := percent_or_ha w;
        calls := calls w ++ [ev_ee_Initialize; ev_ee_FeatureCollection;
                             ev_size_getInfo] |}).
Proof.
  unfold_route. rewrite Hinit. simpl.
  destruct (input_type request); simpl; rewrite Hload; simpl;
    rewrite Hsize; simpl; rewrite <- !app_assoc; reflexivity.
Qed.

Lemma run_to_statistics (request : AnalyzeRequest) (w : World)
  (fc : FeatureCollection E) (n : Z) :
  reaches_statistics E request fc n ->
  analyze_plots E request w
  = try_except
      (bind (run_whisp_analysis E request fc n) (fun df =>
       bind (calculate_risk_step E request df) (fun df' =>
       ret (success_response request n df'))))
      (fun e =>
         match e with
         | HTTPException _ _ => raise e
         | Exception msg =>
             raise (HTTPException HTTP_500_INTERNAL_SERVER_ERROR
                      ("Unexpected error: " ++ msg))
         end)
      {| percent_or_ha := percent_or_ha w;
         calls := calls w ++ [ev_ee_Initialize; ev_ee_FeatureCollection;
                              ev_size_getInfo] |}.
Proof.
  intros [Hinit [Hload [Hsize [Hn0 Hn]]]].
  unfold analyze_plots, parse_input, geojson_to_ee, initialize_gee,
    input_collection, try_except, bind, ret, raise, call, log in *.
  simpl in *. rewrite Hinit. simpl.
  destruct (input_type request); simpl; rewrite Hload; simpl;
    rewrite Hsize; simpl; rewrite <- !app_assoc; simpl;
    (destruct (Z.eqb_spec n 0); [contradiction|]);
    (destruct (Z.gtb_spec n 500); [lia|]); reflexivity.
Qed.

Ltac finish_run Hreach :=
  let Hn := fresh "Hn" in
  pose proof Hreach as [_ [_ [_ [_ Hn]]]]; simpl in Hn;
  rewrite (run_to_statistics _ _ _ _ Hreach);
  unfold run_whisp_analysis, calculate_risk_step, fc_to_dataframe,
    try_except, bind, ret, raise, call, get_percent_or_ha,
    set_percent_or_ha, log;
  simpl.

(** X5. When the statistics fail, the route answers 500 "Failed to run
    analysis: ..." without converting or classifying anything, and the
    unit setting is left at the unit the request asked for. *)
Theorem statistics_failure_is_500
  (request : AnalyzeRequest) (w : World) (fc : FeatureCollection E) (n : Z)
  (msg : string)
  (Hreach : reaches_statistics E request fc n)
  (Hstats : get_stats E (OutputUnit_value (output_unit request)) fc
            = inl msg) :
  analyze_plots E request w
  = (inl (HTTPException 500 ("Failed to run analysis: " ++ msg)),
     {| percent_or_ha := OutputUnit_value (output_unit request);
        calls := calls w ++
          [ev_ee_Initialize; ev_ee_FeatureCollection; ev_size_getInfo;
           ev_set_percent_or_ha (OutputUnit_value (output_unit request));
           ev_get_stats (OutputUnit_value (output_unit request))] |}).
Proof.
  finish_run Hreach. rewrite Hstats. simpl.
  rewrite <- !app_assoc. reflexivity.
Qed.

(** X6. When the statistics succeed and their conversion to a data frame
    fails, the route answers 500 with both prefixes, "Failed to run
    analysis: Failed to convert FeatureCollection to DataFrame: ...", and
    the unit setting is left at the unit the request asked for. *)
Theorem conversion_failure_is_500
  (request : AnalyzeRequest) (w : World) (fc stats_fc : FeatureCollection E)
  (n : Z) (msg : string)
  (Hreach : reaches_statistics E request fc n)
  (Hstats : get_stats E (OutputUnit_value (output_unit request)) fc
            = inr stats_fc)
  (Hpandas : geemap_ee_to_pandas E stats_fc = inl msg) :
  analyze_plots E request w
  = (inl (HTTPException 500
            ("Failed to run analysis: "
             ++ "Failed to convert FeatureCollection to DataFrame: " ++ msg)),
     {| percent_or_ha := OutputUnit_value (output_unit request);
        calls := calls w ++
          [ev_ee_Initialize; ev_ee_FeatureCollection; ev_size_getInfo;
           ev_set_percent_or_ha (OutputUnit_value (output_unit request));
           ev_get_stats (OutputUnit_value (output_unit request));
           ev_ee_to_pandas] |}).
Proof.
  finish_run Hreach. rewrite Hstats. simpl.
  destruct (Z.leb_spec n 500); [|lia]. simpl. rewrite Hpandas. simpl.
  rewrite <- !app_assoc. reflexivity.
Qed.

(** X7. When the risk classification fails, the route answers 500
    "Failed to calculate risk: ..."; the statistics are lost with it, and
    the unit setting is back at its value before the run.  The classifier
    was handed the coerced frame and the four thresholds of the request,
    and found the setting restored. *)
Theorem risk_failure_is_500
  (request : AnalyzeRequest) (w : World) (fc stats_fc : FeatureCollection E)
  (n : Z) (df : DataFrame) (msg : string)
  (Hreach : reaches_statistics E request fc n)
  (Hstats : get_stats E (OutputUnit_value (output_unit request)) fc
            = inr stats_fc)
  (Hpandas : geemap_ee_to_pandas E stats_fc = inr df)
  (Hflag : calculate_risk request = true)
  (Hrisk : whisp_risk E (percent_or_ha w) (coerce_numeric_columns E df)
             (ind_1_threshold request) (ind_2_threshold request)
             (ind_3_threshold request) (ind_4_threshold request)
           = inl msg) :
  analyze_plots E request w
  = (inl (HTTPException 500 ("Failed to calculate risk: " ++ msg)),
     {| percent_or_ha := percent_or_ha w;
        calls := calls w ++ full_run_calls request w |}).
Proof.
  finish_run Hreach. rewrite Hstats. simpl.
  destruct (Z.leb_spec n 500); [|lia]. simpl. rewrite Hpandas. simpl.
  rewrite Hflag. simpl. rewrite Hrisk. simpl.
  rewrite <- !app_assoc. reflexivity.
Qed.

(** X8. When nothing fails the response is "success" with the size as
    num_features, the unit and the risk flag of the request, and one
    record per row of the frame: the coerced statistics when no risk is
    asked for, in which case the classifier is not called, and otherwise
    what the classifier made of the coerced statistics.  The unit setting
    is back at its value before the run. *)
Theorem successful_run
  (request : AnalyzeRequest) (w : World) (fc stats_fc : FeatureCollection E)
  (n : Z) (df : DataFrame)
  (Hreach : reaches_statistics E request fc n)
  (Hstats : get_stats E (OutputUnit_value (output_unit request)) fc
            = inr stats_fc)
  (Hpandas : geemap_ee_to_pandas E stats_fc = inr df) :
  (calculate_risk request = false ->
   analyze_plots E request w
   = (inr {| status := "success";
             num_features := n;
             response_output_unit := OutputUnit_value (output_unit request);
             risk_calculated := false;
             results := to_dict_records (coerce_numeric_columns E df);
             message := Some ("Successfully analyzed " ++ str_int n
                              ++ " features") |},
      {| percent_or_ha := percent_or_ha w;
         calls := calls w ++ firstn 7 (full_run_calls request w) |}))
  /\ (forall df_risk,
         calculate_risk request = true ->
         whisp_risk E (percent_or_ha w) (coerce_numeric_columns E df)
           (ind_1_threshold request) (ind_2_threshold request)
           (ind_3_threshold request) (ind_4_threshold request)
         = inr df_risk ->
         analyze_plots E request w
         = (inr {| status := "success";
                   num_features := n;
                   response_output_unit :=
                     OutputUnit_value (output_unit request);
                   risk_calculated := true;
                   results := to_dict_records df_risk;
                   message := Some ("Successfully analyzed " ++ str_int n
                                    ++ " features") |},
            {| percent_or_ha := percent_or_ha w;
               calls := calls w ++ full_run_calls request w |})).
Proof.
  split.
  - intros Hflag. finish_run Hreach. rewrite Hstats. simpl.
    destruct (Z.leb_spec n 500); [|lia]. simpl. rewrite Hpandas. simpl.
    rewrite Hflag. simpl. unfold success_response. rewrite Hflag.
    rewrite <- !app_assoc. reflexivity.
  - intros df_risk Hflag Hrisk. finish_run Hreach. rewrite Hstats. simpl.
    destruct (Z.leb_spec n 500); [|lia]. simpl. rewrite Hpandas. simpl.
    rewrite Hflag. simpl. rewrite Hrisk. simpl.
    unfold success_response. rewrite Hflag.
    rewrite <- !app_assoc. reflexivity.
Qed.
End RunOutcomes.

(** * Further properties of the route: what holds of every run *)

Section RunInvariants.
Variable E : Collaborators.

Lemma OutputUnit_round_trip (u : OutputUnit) :
  parse_OutputUnit (OutputUnit_value u) = Some u.
Proof. now destruct u. Qed.

Lemma InputType_round_trip (t : InputType) :
  parse_InputType (InputType_value t) = Some t.
Proof. now destruct t. Qed.

(** Whatever the route raises is an [HTTPException] with status 400 or
    500, and its detail is neither of the two catch-all messages. *)
Lemma analyze_plots_raises_http (request : AnalyzeRequest) (w : World)
  (e : PyExc) :
  fst (analyze_plots E request w) = inl e ->
  exists c d,
    e = HTTPException c d
    /\ (c = 400 \/ c = 500)
    /\ d <> "An unexpected error occurred. Please check the server logs."
    /\ forall msg, d <> "Unexpected error: " ++ msg.
Proof.
  route_cases; intros He; try discriminate He;
    injection He as <-; do 2 eexists;
    (split; [reflexivity|]); (split; [auto|]);
    (split; [intros Hd; discriminate Hd|intros m Hd; discriminate Hd]).
Qed.


(** X10. A response of the route is of one of two kinds: "too_large",
    with no results and no risk, for a collection of more than 500
    features, or "success", for a collection of at most 500 and not zero
    features, with the risk flag of the request.  Either way num_features
    is the size the collection reported, and output_unit is the value of
    the unit of the request, which reads back as that unit. *)
Theorem response_kinds (request : AnalyzeRequest) (w : World)
  (response : AnalyzeResponse)
  (Hrun : fst (analyze_plots E request w) = inr response) :
  parse_OutputUnit (response_output_unit response)
  = Some (output_unit request)
  /\ (exists fc,
        input_collection E request = inr fc
        /\ size_getInfo E fc = inr (num_features response))
  /\ ((status response = "too_large"
       /\ results response = []
       /\ risk_calculated response = false
       /\ 500 < num_features response)
      \/ (status response = "success"
          /\ num_features response <> 0
          /\ num_features response <= 500
          /\ risk_calculated response = calculate_risk request)).
Proof.
  revert Hrun.
  route_cases; intros Hrun; try discriminate Hrun;
    injection Hrun as <-; simpl;
    (split; [apply OutputUnit_round_trip|]);
    (split; [eexists; split; [reflexivity|eassumption]|]);
    first [ left; repeat split; solve [auto; lia]
          | right; repeat split; solve [auto; lia; congruence] ].
Qed.

(** X11. Every run calls its collaborators in the same order and each at
    most once: the calls of a run are an initial part of the full
    sequence initialise, load, size, set unit, statistics, conversion,
    restore unit, classify, and a run that is not asked for risk stops
    before the last. *)
Theorem calls_are_a_prefix (request : AnalyzeRequest) (w : World) :
  exists k,
    new_calls w (snd (analyze_plots E request w))
    = firstn k (full_run_calls request w)
    /\ (1 <= k <= 8)%nat
    /\ (calculate_risk request = false -> (k <= 7)%nat).
Proof.
  route_cases;
    first [ exists 1%nat; split; [reflexivity|]
          | exists 2%nat; split; [reflexivity|]
          | exists 3%nat; split; [reflexivity|]
          | exists 5%nat; split; [reflexivity|]
          | exists 6%nat; split; [reflexivity|]
          | exists 7%nat; split; [reflexivity|]
          | exists 8%nat; split; [reflexivity|] ];
    (split; [lia|]); intros Hflag; first [lia | discriminate Hflag].
Qed.

(** The unit setting after a run: as before, or the unit of the
    request. *)
Lemma setting_after_run (request : AnalyzeRequest) (w : World) :
  percent_or_ha (snd (analyze_plots E request w)) = percent_or_ha w
  \/ percent_or_ha (snd (analyze_plots E request w))
     = OutputUnit_value (output_unit request).
Proof. route_cases; auto. Qed.

(** X12. Over any sequence of requests served by one process, the unit
    setting is the one the process started with or the unit that one of
    the requests asked for; so a setting that starts as "ha" or "percent"
    is "ha" or "percent" ever after. *)
Theorem setting_stays_a_unit (requests : list AnalyzeRequest) (w : World) :
  (percent_or_ha (serve E requests w) = percent_or_ha w
   \/ exists request,
        In request requests
        /\ percent_or_ha (serve E requests w)
           = OutputUnit_value (output_unit request))
  /\ (parse_OutputUnit (percent_or_ha w) <> None ->
      parse_OutputUnit (percent_or_ha (serve E requests w)) <> None).
Proof.
  assert (Hinv : percent_or_ha (serve E requests w) = percent_or_ha w
                 \/ exists request,
                      In request requests
                      /\ percent_or_ha (serve E requests w)
                         = OutputUnit_value (output_unit request)).
  { revert w. induction requests as [|request rest IH]; intros w; simpl.
    - now left.
    - destruct (IH (snd (analyze_plots E request w)))
        as [Hsame|[r [Hin Hr]]].
      + rewrite Hsame.
        destruct (setting_after_run request w) as [H|H]; [now left|].
        right. exists request. split; [now left|exact H].
      + right. exists r. split; [now right|exact Hr]. }
  split; [exact Hinv|].
  intros Hstart. destruct Hinv as [->|[r [_ ->]]]; [exact Hstart|].
  rewrite OutputUnit_round_trip. discriminate.
Qed.

(** X13. Called by itself, [fc_to_dataframe] takes the geemap conversion
    up to and including 500 features and the whisp conversion from 501
    on; it calls that one converter and, when it fails, raises its message
    behind "Failed to convert FeatureCollection to DataFrame: ". *)
Theorem fc_to_dataframe_boundary (fc : FeatureCollection E) (n : Z)
  (w : World) :
  (n <= 500 ->
   fc_to_dataframe E fc n w
   = (converted (geemap_ee_to_pandas E fc), log ev_ee_to_pandas w))
  /\ (500 < n ->
      fc_to_dataframe E fc n w
      = (converted (collection_properties_to_df E fc),
         log ev_collection_properties_to_df w)).
Proof.
  unfold fc_to_dataframe, try_except, call, raise, converted.
  split; intros Hn.
  - destruct (Z.leb_spec n 500); [|lia].
    now destruct (geemap_ee_to_pandas E fc).
  - destruct (Z.leb_spec n 500); [lia|].
    now destruct (collection_properties_to_df E fc).
Qed.
End RunInvariants.

(** * Further properties of the numeric coercion *)

Section CoercionInvariants.
Variable E : Collaborators.
Local Open Scope list_scope.

(** X14. Coercing twice is coercing once: on a frame with distinct
    column names, a second pass of the loop changes nothing. *)
Theorem coercion_idempotent (df : DataFrame)
  (Hnd : NoDup (df_columns df)) :
  coerce_numeric_columns E (coerce_numeric_columns E df)
  = coerce_numeric_columns E df.
Proof.
  rewrite (coerce_numeric_columns_map E df).
  rewrite coerce_numeric_columns_map, coerced_columns_names.
  rewrite map_map. apply map_ext. intros [name s].
  unfold coerced_column. simpl.
  destruct (is_coercible (df_columns df) name); [|reflexivity].
  now rewrite to_numeric_ignore_idempotent.
Qed.

Lemma coerced_columns_shape (columns : list string) (df : DataFrame) :
  df_shape (map (coerced_column E columns) df) = df_shape df.
Proof.
  unfold df_shape. rewrite map_map. apply map_ext. intros [name s].
  unfold coerced_column. simpl.
  destruct (is_coercible columns name); [|reflexivity].
  now rewrite to_numeric_ignore_length.
Qed.

Lemma df_columns_of_shape (df : DataFrame) :
  df_columns df = map fst (df_shape df).
Proof.
  unfold df_columns, df_shape. rewrite map_map. reflexivity.
Qed.

Lemma df_nrows_of_shape (df : DataFrame) :
  df_nrows df = match df_shape df with [] => O | (_, n) :: _ => n end.
Proof. now destruct df as [|[name s] df]. Qed.

Lemma dict_setitem_old (d : list (string * Cell)) (k : string) (v : Cell) :
  In k (map fst d) -> map fst (dict_setitem d k v) = map fst d.
Proof.
  induction d as [|[k' v'] d IH]; simpl; [contradiction|].
  intros Hin. destruct (String.eqb_spec k' k) as [->|Hne]; [reflexivity|].
  simpl. f_equal. apply IH. destruct Hin as [Heq|Hin]; [contradiction|exact Hin].
Qed.

Lemma dict_setitem_new (d : list (string * Cell)) (k : string) (v : Cell) :
  ~ In k (map fst d) -> dict_setitem d k v = d ++ [(k, v)].
Proof.
  induction d as [|[k' v'] d IH]; simpl; [reflexivity|].
  intros Hnot. destruct (String.eqb_spec k' k) as [->|Hne].
  - exfalso. apply Hnot. now left.
  - f_equal. apply IH. intros Hin. apply Hnot. now right.
Qed.

Lemma dict_fold_keys (items d : list (string * Cell)) :
  NoDup (map fst d) ->
  let d' := fold_left (fun d kv => dict_setitem d (fst kv) (snd kv)) items d in
  NoDup (map fst d')
  /\ forall key, In key (map fst d')
                 <-> In key (map fst d) \/ In key (map fst items).
Proof.
  revert d. induction items as [|[k v] items IH]; intros d Hnd; simpl.
  - split; [exact Hnd|]. intros key. tauto.
  - destruct (in_dec string_dec k (map fst d)) as [Hin|Hnot].
    + pose proof (dict_setitem_old d k v Hin) as Hkeys.
      destruct (IH (dict_setitem d k v)) as [H1 H2];
        [now rewrite Hkeys|].
      split; [exact H1|]. intros key. rewrite H2, Hkeys.
      split; [tauto|]. intros [H|[<-|H]]; auto.
    + rewrite (dict_setitem_new d k v Hnot).
      destruct (IH (d ++ [(k, v)])) as [H1 H2].
      { rewrite map_app. simpl. apply NoDup_app; auto.
        - repeat constructor. intros [].
        - intros a Ha [<-|[]]. contradiction. }
      split; [exact H1|]. intros key. rewrite H2, map_app, in_app_iff.
      simpl. tauto.
Qed.

Lemma dict_fold_distinct (items d : list (string * Cell)) :
  NoDup (map fst d ++ map fst items) ->
  fold_left (fun d kv => dict_setitem d (fst kv) (snd kv)) items d
  = d ++ items.
Proof.
  revert d. induction items as [|[k v] items IH]; intros d Hnd; simpl.
  - now rewrite app_nil_r.
  - simpl in Hnd. rewrite dict_setitem_new.
    + rewrite IH; [now rewrite <- app_assoc|].
      rewrite map_app, <- app_assoc. exact Hnd.
    + apply NoDup_remove_2 in Hnd. intros Hin. apply Hnd, in_or_app.
      now left.
Qed.

(** A dictionary holds each key once, and the keys are those of the items
    it was made of; items with distinct keys are the dictionary. *)
Lemma dict_of_items_keys (items : list (string * Cell)) :
  NoDup (map fst (dict_of_items items))
  /\ (forall key, In key (map fst (dict_of_items items))
                  <-> In key (map fst items))
  /\ (NoDup (map fst items) -> dict_of_items items = items).
Proof.
  unfold dict_of_items.
  destruct (dict_fold_keys items [] (NoDup_nil _)) as [H1 H2].
  split; [exact H1|]. split.
  - intros key. rewrite H2. simpl. tauto.
  - intros Hnd. now rewrite dict_fold_distinct.
Qed.

(** X15. The coercion keeps the shape of any frame, duplicate column
    names or not: the same columns in the same order, each of the same
    length; so the response has as many records as the frame had rows
    before the coercion.  Each record holds every column name of the frame
    as a key, once; when the column names are distinct, its keys are the
    columns in their order. *)
Theorem coercion_keeps_shape (df : DataFrame) :
  df_shape (coerce_numeric_columns E df) = df_shape df
  /\ df_columns (coerce_numeric_columns E df) = df_columns df
  /\ List.length (to_dict_records (coerce_numeric_columns E df))
     = df_nrows df
  /\ (forall record,
        In record (to_dict_records (coerce_numeric_columns E df)) ->
        NoDup (map fst record)
        /\ (forall key, In key (map fst record) <-> In key (df_columns df))
        /\ (NoDup (df_columns df) -> map fst record = df_columns df)).
Proof.
  assert (Hshape : df_shape (coerce_numeric_columns E df) = df_shape df)
    by (rewrite coerce_numeric_columns_map; apply coerced_columns_shape).
  assert (Hcols : df_columns (coerce_numeric_columns E df) = df_columns df)
    by now rewrite !df_columns_of_shape, Hshape.
  split; [exact Hshape|]. split; [exact Hcols|]. split.
  - unfold to_dict_records. rewrite length_map, length_seq.
    now rewrite !df_nrows_of_shape, Hshape.
  - intros record Hin. unfold to_dict_records in Hin.
    apply in_map_iff in Hin. destruct Hin as [i [<- _]].
    match goal with
    | |- context [dict_of_items ?l] => set (items := l)
    end.
    assert (Hkeys : map fst items = df_columns df).
    { unfold items. rewrite map_map. simpl. exact Hcols. }
    destruct (dict_of_items_keys items) as [H1 [H2 H3]].
    split; [exact H1|]. split.
    + intros key. rewrite <- Hkeys. apply H2.
    + intros Hnd. rewrite H3; [exact Hkeys|now rewrite Hkeys].
Qed.
End CoercionInvariants.

(** * Further properties of validation and of the client *)

Lemma parse_InputType_inv (s : string) (t : InputType) :
  parse_InputType s = Some t -> s = InputType_value t.
Proof.
  unfold parse_InputType.
  destruct (String.eqb_spec s "gee_asset") as [->|_]; [now intros [= <-]|].
  destruct (String.eqb_spec s "geojson") as [->|_]; [now intros [= <-]|].
  discriminate.
Qed.

Lemma parse_OutputUnit_inv (s : string) (u : OutputUnit) :
  parse_OutputUnit s = Some u -> s = OutputUnit_value u.
Proof.
  unfold parse_OutputUnit.
  destruct (String.eqb_spec s "ha") as [->|_]; [now intros [= <-]|].
  destruct (String.eqb_spec s "percent") as [->|_]; [now intros [= <-]|].
  discriminate.
Qed.




(** X18. The request the route receives holds what the body gave and the
    defaults for what it left out: input_type and input_data are the
    body's, the unit is the body's or "ha", the risk flag the body's or
    False, and each threshold is the body's value unchanged (never
    clamped or rounded) or the default, 10, 10, 0 and 0, the same defaults
    as in config.py. *)
Theorem accepted_request_fields (b : RequestBody) (request : AnalyzeRequest)
  (Hvalid : validate_AnalyzeRequest b = Some request) :
  body_input_type b = Some (InputType_value (input_type request))
  /\ body_input_data b = Some (input_data request)
  /\ match body_output_unit b with
     | Some u => u = OutputUnit_value (output_unit request)
     | None => output_unit request = HECTARES
     end
  /\ calculate_risk request
     = match body_calculate_risk b with Some r => r | None => false end
  /\ ind_1_threshold request
     = match body_ind_1_threshold b with
       | Some x => x | None => DEFAULT_IND_1_THRESHOLD end
  /\ ind_2_threshold request
     = match body_ind_2_threshold b with
       | Some x => x | None => DEFAULT_IND_2_THRESHOLD end
  /\ ind_3_threshold request
     = match body_ind_3_threshold b with
       | Some x => x | None => DEFAULT_IND_3_THRESHOLD end
  /\ ind_4_threshold request
     = match body_ind_4_threshold b with
       | Some x => x | None => DEFAULT_IND_4_THRESHOLD end.
Proof.
  assert (Hth : forall d v t,
             threshold_field d v = Some t ->
             t = match v with Some x => x | None => d end).
  { intros d [x|] t; unfold threshold_field.
    - destruct (float_ge x (Finite 0) && float_le x (Finite 100));
        [now intros [= <-]|discriminate].
    - now intros [= <-]. }
  revert Hvalid. unfold validate_AnalyzeRequest.
  destruct (body_input_type b) as [it|]; simpl; [|discriminate].
  destruct (parse_InputType it) as [t|] eqn:Hit; [|discriminate].
  destruct (body_input_data b) as [d|]; simpl; [|discriminate].
  destruct (default_field HECTARES parse_OutputUnit (body_output_unit b))
    as [u|] eqn:Hu; [|discriminate].
  destruct (body_calculate_risk b) as [r|]; simpl;
    destruct (threshold_field (Finite 10) (body_ind_1_threshold b))
      as [t1|] eqn:H1; try discriminate;
    destruct (threshold_field (Finite 10) (body_ind_2_threshold b))
      as [t2|] eqn:H2; try discriminate;
    destruct (threshold_field (Finite 0) (body_ind_3_threshold b))
      as [t3|] eqn:H3; try discriminate;
    destruct (threshold_field (Finite 0) (body_ind_4_threshold b))
      as [t4|] eqn:H4; try discriminate;
    intros [= <-]; simpl;
    (split; [now rewrite (parse_InputType_inv it t Hit)|]);
    (split; [reflexivity|]);
    (split; [destruct (body_output_unit b) as [us|]; simpl in Hu;
             [now apply parse_OutputUnit_inv|now injection Hu as <-]|]);
    (split; [reflexivity|]);
    repeat split; now apply Hth.
Qed.

Lemma threshold_field_keeps (d x : pyfloat) :
  in_percent_range x -> threshold_field d (Some x) = Some x.
Proof.
  intros Hx. unfold threshold_field.
  now rewrite (proj2 (bounds_check_iff x) Hx).
Qed.

(** X19. What the client sends is accepted whenever its unit is "ha" or
    "percent" and its thresholds are percentages, and the route then
    receives exactly the arguments of the client call: an asset path as
    "gee_asset", and GeoJSON as "geojson", a dictionary serialised and a
    string untouched.  The client gives every field, so no default of the
    schema ever applies to its requests. *)
Theorem client_payload_accepted {J : Type} (json_dumps : J -> string)
  (asset_path output_unit : string) (geojson : J + string)
  (unit : OutputUnit) (calculate_risk : bool) (t1 t2 t3 t4 : pyfloat)
  (Hunit : parse_OutputUnit output_unit = Some unit)
  (H1 : in_percent_range t1) (H2 : in_percent_range t2)
  (H3 : in_percent_range t3) (H4 : in_percent_range t4) :
  validate_AnalyzeRequest
    (analyze_gee_asset_payload asset_path output_unit calculate_risk
       t1 t2 t3 t4)
  = Some (mkAnalyzeRequest GEE_ASSET asset_path unit calculate_risk
            t1 t2 t3 t4)
  /\ validate_AnalyzeRequest
       (analyze_geojson_payload json_dumps geojson output_unit
          calculate_risk t1 t2 t3 t4)
     = Some (mkAnalyzeRequest GEOJSON
               (match geojson with inl d => json_dumps d | inr s => s end)
               unit calculate_risk t1 t2 t3 t4).
Proof.
  unfold validate_AnalyzeRequest, analyze_gee_asset_payload,
    analyze_geojson_payload.
  cbn [body_input_type body_input_data body_output_unit body_calculate_risk
       body_ind_1_threshold body_ind_2_threshold body_ind_3_threshold
       body_ind_4_threshold required_field default_field].
  rewrite Hunit.
  rewrite !threshold_field_keeps by assumption.
  split; reflexivity.
Qed.

Lemma raise_for_status_cases (E : Collaborators) (b : RequestBody)
  (w : World) :
  (forall response,
      fst (post_analyze E b w) = Reply200 response ->
      raise_for_status (fst (post_analyze E b w)) = inr (Reply200 response))
  /\ (forall c d,
         fst (post_analyze E b w) = ReplyError c d ->
         (c = 400 \/ c = 500)
         /\ raise_for_status (fst (post_analyze E b w))
            = inl (mkHTTPError c))
  /\ (fst (post_analyze E b w) = ReplyValidationError ->
      raise_for_status (fst (post_analyze E b w)) = inl (mkHTTPError 422)).
Proof.
  split; [|split].
  - intros response ->. reflexivity.
  - intros c d Hr.
    assert (Hc : c = 400 \/ c = 500).
    { revert Hr. unfold post_analyze.
      destruct (validate_AnalyzeRequest b) as [request|]; simpl;
        [|destruct (has_non_finite_threshold b); simpl;
          [intros [= <- _]; right; reflexivity|discriminate]].
      pose proof (analyze_plots_raises_http E request w) as Hraise.
      destruct (analyze_plots E request w) as [[[c' d'|msg]|response] w1];
        simpl in *.
      - destruct (Hraise _ eq_refl) as [c2 [d2 [Heq [Hc _]]]].
        injection Heq as -> ->. now intros [= <- _].
      - destruct (Hraise _ eq_refl) as [c2 [d2 [Heq _]]]. discriminate Heq.
      - discriminate. }
    split; [exact Hc|]. rewrite Hr.
    destruct Hc as [-> | ->]; reflexivity.
  - intros ->. reflexivity.
Qed.

(** X20. The client returns the reply as its result exactly when the
    status is 200, so a "too_large" answer comes back as an ordinary
    result and not as an exception; every other reply raises HTTPError,
    with status 400, 422 or 500.  The client adds nothing to what the
    request does to the service. *)
Theorem client_returns_on_200_only {J : Type} (json_dumps : J -> string)
  (E : Collaborators) (asset_path output_unit : string)
  (geojson : J + string) (calculate_risk : bool) (t1 t2 t3 t4 : pyfloat)
  (w : World) :
  (forall result,
      fst (analyze_gee_asset E asset_path output_unit calculate_risk
             t1 t2 t3 t4 w) = inr result ->
      exists response,
        result = Reply200 response
        /\ fst (post_analyze E
                  (analyze_gee_asset_payload asset_path output_unit
                     calculate_risk t1 t2 t3 t4) w) = Reply200 response)
  /\ (forall result,
         fst (analyze_geojson json_dumps E geojson output_unit calculate_risk
                t1 t2 t3 t4 w) = inr result ->
         exists response,
           result = Reply200 response
           /\ fst (post_analyze E
                     (analyze_geojson_payload json_dumps geojson output_unit
                        calculate_risk t1 t2 t3 t4) w) = Reply200 response)
  /\ (forall c,
         fst (analyze_gee_asset E asset_path output_unit calculate_risk
                t1 t2 t3 t4 w) = inl (mkHTTPError c)
         \/ fst (analyze_geojson json_dumps E geojson output_unit
                   calculate_risk t1 t2 t3 t4 w) = inl (mkHTTPError c) ->
         c = 400 \/ c = 422 \/ c = 500)
  /\ snd (analyze_gee_asset E asset_path output_unit calculate_risk
            t1 t2 t3 t4 w)
     = snd (post_analyze E
              (analyze_gee_asset_payload asset_path output_unit
                 calculate_risk t1 t2 t3 t4) w).
Proof.
  assert (Hany : forall b,
             (forall result,
                 raise_for_status (fst (post_analyze E b w)) = inr result ->
                 exists response,
                   result = Reply200 response
                   /\ fst (post_analyze E b w) = Reply200 response)
             /\ (forall c,
                    raise_for_status (fst (post_analyze E b w))
                    = inl (mkHTTPError c) ->
                    c = 400 \/ c = 422 \/ c = 500)).
  { intros b.
    destruct (raise_for_status_cases E b w) as [H200 [Herr H422]].
    destruct (fst (post_analyze E b w)) as [response|c d|] eqn:Hr.
    - rewrite (H200 response eq_refl). split.
      + intros result [= <-]. now exists response.
      + discriminate.
    - destruct (Herr c d eq_refl) as [Hc ->]. split.
      + discriminate.
      + intros c0 [= <-]. destruct Hc; auto.
    - rewrite (H422 eq_refl). split.
      + discriminate.
      + intros c0 [= <-]. auto. }
  unfold analyze_gee_asset, analyze_geojson. simpl.
  split; [apply Hany|]. split; [apply Hany|]. split; [|reflexivity].
  intros c [H|H]; eapply Hany; exact H.
Qed.

Lemma rstrip_slashes (k : nat) : rstrip_slash (slashes k) = EmptyString.
Proof. induction k as [|k IH]; simpl; [reflexivity|now rewrite IH]. Qed.

Lemma rstrip_app_slashes (s : string) (k : nat) :
  rstrip_slash (s ++ slashes k) = rstrip_slash s.
Proof.
  induction s as [|c s IH]; simpl.
  - apply rstrip_slashes.
  - now rewrite IH.
Qed.

Lemma rstrip_no_slash (s : string) : ends_with_slash (rstrip_slash s) = false.
Proof.
  induction s as [|c s IH]; simpl; [reflexivity|].
  destruct (rstrip_slash s) as [|c' r'] eqn:Hr.
  - destruct (Ascii.eqb c "/") eqn:Hc; simpl; [reflexivity|exact Hc].
  - exact IH.
Qed.

Lemma rstrip_removes_slashes (s : string) :
  exists k, s = rstrip_slash s ++ slashes k.
Proof.
  induction s as [|c s [k Hk]]; simpl.
  - now exists O.
  - destruct (rstrip_slash s) as [|c' r'] eqn:Hr.
    + destruct (Ascii.eqb_spec c "/") as [->|Hc].
      * exists (S k). simpl. now rewrite Hk at 1.
      * exists k. simpl. now rewrite Hk at 1.
    + exists k. simpl. now rewrite Hk at 1.
Qed.

(** X21. The client's base URL is the given URL without its trailing
    slashes, all of them and nothing else: it never ends in a slash, the
    given URL is the base URL followed by slashes only, and any number of
    slashes added to the given URL leaves the client, hence the URLs it
    requests, the same. *)
Theorem base_url_normalised (url : string) :
  ends_with_slash (base_url (WhispAPIClient_init url)) = false
  /\ (exists k, url = base_url (WhispAPIClient_init url) ++ slashes k)
  /\ (forall k,
         WhispAPIClient_init (url ++ slashes k) = WhispAPIClient_init url
         /\ analyze_url (WhispAPIClient_init (url ++ slashes k))
            = base_url (WhispAPIClient_init url) ++ "/analyze"
         /\ health_url (WhispAPIClient_init (url ++ slashes k))
            = base_url (WhispAPIClient_init url) ++ "/health").
Proof.
  unfold WhispAPIClient_init, analyze_url, health_url. simpl.
  split; [apply rstrip_no_slash|]. split; [apply rstrip_removes_slashes|].
  intros k. now rewrite rstrip_app_slashes.
Qed.

(** * Runs of the further properties on the test doubles *)

Lemma one_plot_reaches_statistics (f : Failure) (it : InputType)
  (u : OutputUnit) (risk : bool) :
  Failure_eqb f fail_initialize = false ->
  Failure_eqb f fail_load = false ->
  Failure_eqb f fail_size = false ->
  reaches_statistics (doubles_failing one_plot f)
    (example_request it u risk) one_plot 1.
Proof.
  intros Hi Hl Hs. unfold reaches_statistics, input_collection. simpl.
  rewrite Hi, Hl, Hs. repeat split; try discriminate.
  now destruct it.
Defined.

Lemma initialisation_failure_is_500_witness :
  ee_Initialize (doubles_failing one_plot fail_initialize) None
  = inl "Not signed up."
  /\ analyze_plots (doubles_failing one_plot fail_initialize)
       (example_request GEE_ASSET HECTARES true) fresh_world
     = (inl (HTTPException 500
               "Failed to initialize Google Earth Engine. Check authentication."),
        {| percent_or_ha := "ha"; calls := [ev_ee_Initialize] |}).
Proof.
  split; [reflexivity|].
  exact (initialisation_failure_is_500
           (doubles_failing one_plot fail_initialize)
           (example_request GEE_ASSET HECTARES true) fresh_world
           "Not signed up." eq_refl).
Defined.

Lemma load_failure_is_400_witness :
  input_collection (doubles_failing one_plot fail_load)
    (example_request GEOJSON HECTARES true) = inl "Expecting value"
  /\ analyze_plots (doubles_failing one_plot fail_load)
       (example_request GEOJSON HECTARES true) fresh_world
     = (inl (HTTPException 400
               "Failed to parse GeoJSON: Failed to parse GeoJSON: Expecting value"),
        {| percent_or_ha := "ha";
           calls := [ev_ee_Initialize; ev_ee_FeatureCollection] |}).
Proof.
  split; [reflexivity|].
  exact (load_failure_is_400 (doubles_failing one_plot fail_load)
           (example_request GEOJSON HECTARES true) fresh_world
           "Expecting value" eq_refl eq_refl).
Defined.

Lemma size_failure_is_400_witness :
  size_getInfo (doubles_failing one_plot fail_size) one_plot
  = inl "Quota exceeded."
  /\ analyze_plots (doubles_failing one_plot fail_size)
       (example_request GEE_ASSET HECTARES true) fresh_world
     = (inl (HTTPException 400 "Failed to get feature count: Quota exceeded."),
        {| percent_or_ha := "ha";
           calls := [ev_ee_Initialize; ev_ee_FeatureCollection;
                     ev_size_getInfo] |}).
Proof.
  split; [reflexivity|].
  exact (size_failure_is_400 (doubles_failing one_plot fail_size)
           (example_request GEE_ASSET HECTARES true) fresh_world one_plot
           "Quota exceeded." eq_refl eq_refl eq_refl).
Defined.

Lemma statistics_failure_is_500_witness :
  reaches_statistics (doubles_failing one_plot fail_statistics)
    (example_request GEE_ASSET PERCENT true) one_plot 1
  /\ analyze_plots (doubles_failing one_plot fail_statistics)
       (example_request GEE_ASSET PERCENT true) fresh_world
     = (inl (HTTPException 500
               "Failed to run analysis: Computation timed out."),
        {| percent_or_ha := "percent";
           calls := [ev_ee_Initialize; ev_ee_FeatureCollection;
                     ev_size_getInfo; ev_set_percent_or_ha "percent";
                     ev_get_stats "percent"] |}).
Proof.
  pose (H := one_plot_reaches_statistics fail_statistics GEE_ASSET PERCENT
               true eq_refl eq_refl eq_refl).
  split; [exact H|].
  exact (statistics_failure_is_500
           (doubles_failing one_plot fail_statistics)
           (example_request GEE_ASSET PERCENT true) fresh_world one_plot 1
           "Computation timed out." H eq_refl).
Defined.

Lemma conversion_failure_is_500_witness :
  reaches_statistics (doubles_failing one_plot fail_conversion)
    (example_request GEE_ASSET PERCENT true) one_plot 1
  /\ analyze_plots (doubles_failing one_plot fail_conversion)
       (example_request GEE_ASSET PERCENT true) fresh_world
     = (inl (HTTPException 500
               "Failed to run analysis: Failed to convert FeatureCollection to DataFrame: Too many properties."),
        {| percent_or_ha := "percent";
           calls := [ev_ee_Initialize; ev_ee_FeatureCollection;
                     ev_size_getInfo; ev_set_percent_or_ha "percent";
                     ev_get_stats "percent"; ev_ee_to_pandas] |}).
Proof.
  pose (H := one_plot_reaches_statistics fail_conversion GEE_ASSET PERCENT
               true eq_refl eq_refl eq_refl).
  split; [exact H|].
  exact (conversion_failure_is_500
           (doubles_failing one_plot fail_conversion)
           (example_request GEE_ASSET PERCENT true) fresh_world one_plot
           _ 1 "Too many properties." H eq_refl eq_refl).
Defined.

Lemma risk_failure_is_500_witness :
  reaches_statistics (doubles_failing one_plot fail_risk)
    (example_request GEE_ASSET PERCENT true) one_plot 1
  /\ analyze_plots (doubles_failing one_plot fail_risk)
       (example_request GEE_ASSET PERCENT true) fresh_world
     = (inl (HTTPException 500 "Failed to calculate risk: Column missing."),
        {| percent_or_ha := "ha";
           calls := [ev_ee_Initialize; ev_ee_FeatureCollection;
                     ev_size_getInfo; ev_set_percent_or_ha "percent";
                     ev_get_stats "percent"; ev_ee_to_pandas;
                     ev_set_percent_or_ha "ha"; ev_whisp_risk] |}).
Proof.
  pose (H := one_plot_reaches_statistics fail_risk GEE_ASSET PERCENT
               true eq_refl eq_refl eq_refl).
  split; [exact H|].
  exact (risk_failure_is_500 (doubles_failing one_plot fail_risk)
           (example_request GEE_ASSET PERCENT true) fresh_world one_plot
           _ 1 _ "Column missing." H eq_refl eq_refl eq_refl eq_refl).
Defined.

Lemma successful_run_witness :
  reaches_statistics (doubles_failing one_plot no_failure)
    (example_request GEOJSON PERCENT false) one_plot 1
  /\ analyze_plots (doubles_failing one_plot no_failure)
       (example_request GEOJSON PERCENT false) fresh_world
     = (inr {| status := "success";
               num_features := 1;
               response_output_unit := "percent";
               risk_calculated := false;
               results := [[("Plot_ID", CStr "p1");
                            ("Country", CStr "Brazil");
                            ("Cover", CNum (125 # 10));
                            ("Unit", CStr "percent")]];
               message := Some "Successfully analyzed 1 features" |},
        {| percent_or_ha := "ha";
           calls := [ev_ee_Initialize; ev_ee_FeatureCollection;
                     ev_size_getInfo; ev_set_percent_or_ha "percent";
                     ev_get_stats "percent"; ev_ee_to_pandas;
                     ev_set_percent_or_ha "ha"] |}).
Proof.
  pose (H := one_plot_reaches_statistics no_failure GEOJSON PERCENT
               false eq_refl eq_refl eq_refl).
  split; [exact H|].
  exact (proj1 (successful_run (doubles_failing one_plot no_failure)
                  (example_request GEOJSON PERCENT false) fresh_world
                  one_plot _ 1 _ H eq_refl eq_refl) eq_refl).
Defined.

Lemma response_kinds_witness :
  fst (analyze_plots (doubles many_plots false)
         (example_request GEE_ASSET PERCENT true) fresh_world)
  = inr (too_large_response (example_request GEE_ASSET PERCENT true) 501)
  /\ parse_OutputUnit
       (response_output_unit
          (too_large_response (example_request GEE_ASSET PERCENT true) 501))
     = Some PERCENT.
Proof.
  assert (Hrun : fst (analyze_plots (doubles many_plots false)
                        (example_request GEE_ASSET PERCENT true) fresh_world)
                 = inr (too_large_response
                          (example_request GEE_ASSET PERCENT true) 501))
    by reflexivity.
  split; [exact Hrun|].
  exact (proj1 (response_kinds (doubles many_plots false)
                  (example_request GEE_ASSET PERCENT true) fresh_world
                  _ Hrun)).
Defined.

Lemma two_plots_columns_distinct :
  NoDup (df_columns (features_to_dataframe two_plots)).
Proof.
  vm_compute. repeat constructor; simpl; intuition discriminate.
Defined.

Lemma coercion_idempotent_witness :
  NoDup (df_columns (features_to_dataframe two_plots))
  /\ coerce_numeric_columns (doubles two_plots false)
       (coerce_numeric_columns (doubles two_plots false)
          (features_to_dataframe two_plots))
     = coerce_numeric_columns (doubles two_plots false)
         (features_to_dataframe two_plots).
Proof.
  split; [exact two_plots_columns_distinct|].
  exact (coercion_idempotent (doubles two_plots false)
           (features_to_dataframe two_plots) two_plots_columns_distinct).
Defined.


Lemma accepted_request_fields_witness :
  validate_AnalyzeRequest body_partial
  = Some (mkAnalyzeRequest GEOJSON "{}" PERCENT false
            (Finite 10) (Finite (25 # 10)) (Finite 0) (Finite 0))
  /\ body_input_type body_partial = Some "geojson".
Proof.
  assert (Hv : validate_AnalyzeRequest body_partial
               = Some (mkAnalyzeRequest GEOJSON "{}" PERCENT false
                         (Finite 10) (Finite (25 # 10)) (Finite 0)
                         (Finite 0))) by reflexivity.
  split; [exact Hv|].
  exact (proj1 (accepted_request_fields body_partial _ Hv)).
Defined.

Lemma client_payload_accepted_witness :
  parse_OutputUnit "ha" = Some HECTARES
  /\ in_percent_range (Finite 10)
  /\ in_percent_range (Finite 0)
  /\ validate_AnalyzeRequest
       (analyze_gee_asset_payload "projects/ee-whisp/assets/example_plots"
          "ha" true (Finite 10) (Finite 10) (Finite 0) (Finite 0))
     = Some (mkAnalyzeRequest GEE_ASSET
               "projects/ee-whisp/assets/example_plots" HECTARES true
               (Finite 10) (Finite 10) (Finite 0) (Finite 0)).
Proof.
  destruct default_thresholds_in_range as [H10 H0].
  split; [reflexivity|]. split; [exact H10|]. split; [exact H0|].
  exact (proj1 (client_payload_accepted (fun s : string => s)
                  "projects/ee-whisp/assets/example_plots" "ha"
                  (inr "{}") HECTARES true
                  (Finite 10) (Finite 10) (Finite 0) (Finite 0)
                  eq_refl H10 H10 H0 H0)).
Defined.

(** * One request after another *)

Section RequestAfterRequest.
Variable E : Collaborators.

(** X22. A request whose statistics fail changes what the next request
    of the process finds: the classifier of the next request is called
    under the failed request's unit, not under the setting the process had,
    and that next run, although it succeeds, leaves the failed request's
    unit in place. *)
Theorem failed_run_reaches_next_classifier
  (failed next : AnalyzeRequest) (w : World)
  (fc1 fc2 stats_fc : FeatureCollection E) (n1 n2 : Z)
  (df df_risk : DataFrame) (msg : string)
  (Hreach1 : reaches_statistics E failed fc1 n1)
  (Hfail : get_stats E (OutputUnit_value (output_unit failed)) fc1 = inl msg)
  (Hreach2 : reaches_statistics E next fc2 n2)
  (Hstats : get_stats E (OutputUnit_value (output_unit next)) fc2
            = inr stats_fc)
  (Hpandas : geemap_ee_to_pandas E stats_fc = inr df)
  (Hflag : calculate_risk next = true)
  (Hrisk : whisp_risk E (OutputUnit_value (output_unit failed))
             (coerce_numeric_columns E df)
             (ind_1_threshold next) (ind_2_threshold next)
             (ind_3_threshold next) (ind_4_threshold next)
           = inr df_risk) :
  fst (analyze_plots E next (snd (analyze_plots E failed w)))
  = inr {| status := "success";
           num_features := n2;
           response_output_unit := OutputUnit_value (output_unit next);
           risk_calculated := true;
           results := to_dict_records df_risk;
           message := Some ("Successfully analyzed " ++ str_int n2
                            ++ " features") |}
  /\ percent_or_ha (snd (analyze_plots E next (snd (analyze_plots E failed w))))
     = OutputUnit_value (output_unit failed).
Proof.
  assert (Hfirst : percent_or_ha (snd (analyze_plots E failed w))
                   = OutputUnit_value (output_unit failed)).
  { pose proof Hreach1 as [_ [_ [_ [_ Hn]]]]. simpl in Hn.
    rewrite (run_to_statistics E _ _ _ _ Hreach1).
    unfold run_whisp_analysis, try_except, bind, ret, raise, call,
      get_percent_or_ha, set_percent_or_ha, log. simpl.
    rewrite Hfail. reflexivity. }
  set (w1 := snd (analyze_plots E failed w)) in *.
  pose proof Hreach2 as [_ [_ [_ [_ Hn]]]]. simpl in Hn.
  rewrite (run_to_statistics E _ w1 _ _ Hreach2).
  unfold run_whisp_analysis, calculate_risk_step, fc_to_dataframe,
    try_except, bind, ret, raise, call, get_percent_or_ha,
    set_percent_or_ha, log. simpl.
  rewrite Hstats. simpl.
  destruct (Z.leb_spec n2 500); [|lia]. simpl. rewrite Hpandas. simpl.
  rewrite Hflag. simpl. rewrite Hfirst, Hrisk. simpl.
  unfold success_response. rewrite Hflag. split; reflexivity.
Qed.
End RequestAfterRequest.

Lemma failed_run_reaches_next_classifier_witness :
  reaches_statistics (doubles_percent_fails one_plot)
    (example_request GEE_ASSET PERCENT false) one_plot 1
  /\ reaches_statistics (doubles_percent_fails one_plot)
       (example_request GEE_ASSET HECTARES true) one_plot 1
  /\ option_map results
       (match fst (analyze_plots (doubles_percent_fails one_plot)
                     (example_request GEE_ASSET HECTARES true)
                     (snd (analyze_plots (doubles_percent_fails one_plot)
                             (example_request GEE_ASSET PERCENT false)
                             fresh_world)))
        with inr response => Some response | inl _ => None end)
     = Some [[("Plot_ID", CStr "p1"); ("Country", CStr "Brazil");
              ("Cover", CNum (125 # 10)); ("Unit", CStr "ha");
              ("Risk_unit", CStr "percent")]]
  /\ percent_or_ha
       (snd (analyze_plots (doubles_percent_fails one_plot)
               (example_request GEE_ASSET HECTARES true)
               (snd (analyze_plots (doubles_percent_fails one_plot)
                       (example_request GEE_ASSET PERCENT false)
                       fresh_world))))
     = "percent".
Proof.
  assert (Hreach : forall u risk,
             reaches_statistics (doubles_percent_fails one_plot)
               (example_request GEE_ASSET u risk) one_plot 1).
  { intros u risk. unfold reaches_statistics, input_collection. simpl.
    repeat split; discriminate. }
  split; [apply Hreach|]. split; [apply Hreach|].
  destruct (failed_run_reaches_next_classifier
              (doubles_percent_fails one_plot)
              (example_request GEE_ASSET PERCENT false)
              (example_request GEE_ASSET HECTARES true) fresh_world
              one_plot one_plot _ 1 1 _ _ "Computation timed out."
              (Hreach PERCENT false) eq_refl (Hreach HECTARES true)
              eq_refl eq_refl eq_refl eq_refl) as [Hres Hset].
  split; [rewrite Hres; reflexivity|exact Hset].
Defined.
